(** * Mark 2 face skill: interaction tracker, idle machine, eye brightness

    A shallow embedding of [__init__.py] (class [Mark2]) together with the
    properties of its event handlers.  The skill is a reactor: the message
    bus and the event scheduler call its handlers one at a time, and the
    handlers answer with commands to the enclosure, the GUI and the
    scheduler.  Handlers are written in a small state-and-exception monad
    over the record [World]. *)

From Stdlib Require Import ZArith Lia List Bool Ascii String.
From Stdlib Require Import Floats.SpecFloat.
From stdpp Require Import base strings pretty gmap list.
Import ListNotations.

Local Open Scope string_scope.
Local Open Scope Z_scope.
Local Open Scope list_scope.

(** ** Python values the skill relies on *)

(** Exceptions the modelled code can meet. *)
Inductive Exn : Set :=
| KeyError
| AttributeError
| TypeError
| ValueError
| OverflowError.

(** The outcome of evaluating a Python expression. *)
Inductive Res (A : Type) : Type :=
| Ok (a : A)
| Raise (e : Exn).
Arguments Ok {A} a.
Arguments Raise {A} e.

Definition res_bind {A B} (r : Res A) (k : A -> Res B) : Res B :=
  match r with
  | Ok a => k a
  | Raise e => Raise e
  end.

Declare Scope res_scope.
Delimit Scope res_scope with res.
Notation "'let?' x := r 'in' k" := (res_bind r (fun x => k))
  (at level 10, x name, r at level 100, k at level 200) : res_scope.

(** Text.  A [str] is modelled by a [string] whose characters stand for the
    code points 0..255. *)
Module Py.

(** [str.isspace] on one character: TAB..CR, FS..US, SPACE, NEL, NBSP. *)
Definition is_space (c : ascii) : bool :=
  let n := N_of_ascii c in
  ((9 <=? n)%N && (n <=? 13)%N) || ((28 <=? n)%N && (n <=? 32)%N)
  || (n =? 133)%N || (n =? 160)%N.

Fixpoint lstrip (s : string) : string :=
  match s with
  | String c r => if is_space c then lstrip r else s
  | EmptyString => EmptyString
  end.

Fixpoint rstrip (s : string) : string :=
  match s with
  | EmptyString => EmptyString
  | String c r =>
      match rstrip r with
      | EmptyString => if is_space c then EmptyString else String c EmptyString
      | r' => String c r'
      end
  end.

(** [s.strip()] *)
Definition strip (s : string) : string := rstrip (lstrip s).

(** [sub in s] *)
Fixpoint contains (sub s : string) : bool :=
  String.prefix sub s ||
  match s with
  | EmptyString => false
  | String _ r => contains sub r
  end.

(** [s.replace(old, new)] for a non-empty [old]: the occurrences of [old]
    are replaced from left to right and do not overlap.  [skip] counts the
    characters of a matched occurrence still to be dropped. *)
Fixpoint replace_from (old new : string) (skip : nat) (s : string) : string :=
  match s with
  | EmptyString => EmptyString
  | String c r =>
      match skip with
      | S k => replace_from old new k r
      | O =>
          if String.prefix old s
          then String.append new (replace_from old new (Nat.pred (String.length old)) r)
          else String c (replace_from old new 0 r)
      end
  end.

Definition replace (old new s : string) : string := replace_from old new 0 s.

Definition digit_of (c : ascii) : option Z :=
  let n := N_of_ascii c in
  if (48 <=? n)%N && (n <=? 57)%N then Some (Z.of_N n - 48) else None.

(** The digit part of an integer literal: decimal digits, where single
    underscores may separate digits. *)
Fixpoint digits_from (acc : Z) (after_digit : bool) (s : string) : Res Z :=
  match s with
  | EmptyString => if after_digit then Ok acc else Raise ValueError
  | String c r =>
      match digit_of c with
      | Some d => digits_from (10 * acc + d) true r
      | None =>
          if Ascii.eqb c "_" && after_digit
          then digits_from acc false r
          else Raise ValueError
      end
  end.

(** The white space [int] skips around a literal: TAB..CR, SPACE, NEL and
    NBSP.  The separators FS..US, which [str.strip] removes, are not among
    them: [int] rejects a text that carries one. *)
Definition is_int_space (c : ascii) : bool :=
  let n := N_of_ascii c in
  ((9 <=? n)%N && (n <=? 13)%N) || (n =? 32)%N || (n =? 133)%N || (n =? 160)%N.

Fixpoint int_lstrip (s : string) : string :=
  match s with
  | String c r => if is_int_space c then int_lstrip r else s
  | EmptyString => EmptyString
  end.

Fixpoint int_rstrip (s : string) : string :=
  match s with
  | EmptyString => EmptyString
  | String c r =>
      match int_rstrip r with
      | EmptyString => if is_int_space c then EmptyString else String c EmptyString
      | r' => String c r'
      end
  end.

(** [int(s)] for a [str]: surrounding white space is ignored, one sign is
    accepted, anything else raises [ValueError]. *)
Definition int (s : string) : Res Z :=
  match int_rstrip (int_lstrip s) with
  | String "+" r => digits_from 0 false r
  | String "-" r => res_bind (digits_from 0 false r) (fun n => Ok (- n))
  | t => digits_from 0 false t
  end.

End Py.

(** Floating point.  A Python [float] is an IEEE 754 binary64 number; the
    operations are those of [SpecFloat] at precision 53. *)
Module Float.

Definition prec : Z := 53.
Definition emax : Z := 1024.

(** [float(z)] for an [int]: rounded to nearest, too large raises. *)
Definition of_int (z : Z) : Res spec_float :=
  match binary_normalize prec emax z 0 false with
  | S754_infinity _ => Raise OverflowError
  | f => Ok f
  end.

Definition mul (x y : spec_float) : spec_float := SFmul prec emax x y.
Definition div (x y : spec_float) : spec_float := SFdiv prec emax x y.

(** [int(f)]: truncation towards zero. *)
Definition to_int (f : spec_float) : Res Z :=
  match f with
  | S754_zero _ => Ok 0
  | S754_finite s m e =>
      let a := match e with
               | Z0 => Zpos m
               | Zpos p => Zpos m * 2 ^ Zpos p
               | Zneg p => Zpos m / 2 ^ Zpos p
               end in
      Ok (if s then - a else a)
  | S754_infinity _ => Raise OverflowError
  | S754_nan => Raise ValueError
  end.

(** The literals [100.0] and [30.0] (also [float(100)], [float(30)]). *)
Definition f100 : spec_float := Eval vm_compute in binary_normalize prec emax 100 0 false.
Definition f30 : spec_float := Eval vm_compute in binary_normalize prec emax 30 0 false.

End Float.

(** ** The collaborators of the skill *)

(** What [astral.Location.sun()] returns, as POSIX timestamps in seconds. *)
Record Sun : Set := { sunrise : Z; noon : Z; sunset : Z }.

(** The parts of the platform the skill reads but does not own.
    - [normalize] is [mycroft.util.parse.normalize];
    - [brightness_dict] is the table [translate_namedvalues] loads from the
      locale file [brightness.levels], with its values read as integers;
    - [clock k] is the wall clock at the [k]-th time the skill reads it,
      in whole seconds (what [arrow.now().timestamp] returns);
    - [astral_sun t] is the result of [ast_loc.sun()] asked at clock
      reading [t];
    - [user_set_tz t] is [timezone(tz).localize(datetime.now()).strftime('%Z')],
      [device_tz] is [time.tzname], [tz_offset] is
      [int(self.location['timezone']['offset'])];
    - [shift_as_utc o t] is the instant
      [arrow.get(t).shift(seconds=o / -1000).replace(tzinfo='UTC')]. *)
Class Host : Type := {
  normalize : string -> string;
  brightness_dict : gmap string Z;
  clock : nat -> Z;
  astral_sun : Z -> Sun;
  user_set_tz : Z -> string;
  device_tz : string * string;
  tz_offset : Z;
  shift_as_utc : Z -> Z -> Z
}.

(** Commands the skill sends to the GUI, the enclosure and the speaker. *)
Inductive Command : Set :=
| show_page (page : string)              (* self.gui.show_page(page) *)
| gui_set (key value : string)           (* self.gui[key] = value *)
| enclosure_reset                        (* self.enclosure.reset() *)
| mouth_reset                            (* self.enclosure.mouth_reset() *)
| eyes_brightness (level : option Z)     (* self.enclosure.eyes_brightness(level) *)
| speak_dialog (dialog : string) (val : option string)
| get_response (dialog : string).

(** The two methods the skill hands to the event scheduler. *)
Inductive Callback : Set :=
| cb_check_for_idle
| cb_handle_eye_brightness_event.

(** A pending entry of the event scheduler. *)
Record Timer : Set := {
  t_name : string;
  t_callback : Callback;
  t_when : option Z;
  t_repeat : option Z;
  t_data : option (string * Z)
}.

(** Calls made on the scheduler, in order. *)
Inductive SchedCall : Set :=
| sc_cancel (name : string)
| sc_schedule (name : string) (when : Z)
| sc_repeat (name : string) (frequency : Z).

(** The attributes of the [Mark2] instance followed by the state of its
    surroundings.  [auto_brightness] is [None] until the attribute is first
    assigned: [__init__] only sets [settings['auto_brightness']]. *)
Record World : Type := {
  idle_count : Z;
  hourglass_info : gmap string Z;
  interaction_id : Z;
  has_show_page : bool;
  auto_brightness : option bool;
  auto_dim_eyes : bool;                  (* self.settings['auto_dim_eyes'] *)
  display_active : string;               (* enclosure.display_manager.get_active() *)
  scheduled : list Timer;                (* pending timers of the scheduler *)
  sched_log : list SchedCall;
  emitted : list Command;
  reads : nat                            (* clock readings made so far *)
}.

Definition set_idle_count (v : Z) (w : World) : World :=
  {| idle_count := v; hourglass_info := hourglass_info w;
     interaction_id := interaction_id w; has_show_page := has_show_page w;
     auto_brightness := auto_brightness w; auto_dim_eyes := auto_dim_eyes w;
     display_active := display_active w; scheduled := scheduled w;
     sched_log := sched_log w; emitted := emitted w; reads := reads w |}.

Definition set_hourglass_info (v : gmap string Z) (w : World) : World :=
  {| idle_count := idle_count w; hourglass_info := v;
     interaction_id := interaction_id w; has_show_page := has_show_page w;
     auto_brightness := auto_brightness w; auto_dim_eyes := auto_dim_eyes w;
     display_active := display_active w; scheduled := scheduled w;
     sched_log := sched_log w; emitted := emitted w; reads := reads w |}.

Definition set_interaction_id (v : Z) (w : World) : World :=
  {| idle_count := idle_count w; hourglass_info := hourglass_info w;
     interaction_id := v; has_show_page := has_show_page w;
     auto_brightness := auto_brightness w; auto_dim_eyes := auto_dim_eyes w;
     display_active := display_active w; scheduled := scheduled w;
     sched_log := sched_log w; emitted := emitted w; reads := reads w |}.

Definition set_has_show_page (v : bool) (w : World) : World :=
  {| idle_count := idle_count w; hourglass_info := hourglass_info w;
     interaction_id := interaction_id w; has_show_page := v;
     auto_brightness := auto_brightness w; auto_dim_eyes := auto_dim_eyes w;
     display_active := display_active w; scheduled := scheduled w;
     sched_log := sched_log w; emitted := emitted w; reads := reads w |}.

Definition set_auto_brightness (v : option bool) (w : World) : World :=
  {| idle_count := idle_count w; hourglass_info := hourglass_info w;
     interaction_id := interaction_id w; has_show_page := has_show_page w;
     auto_brightness := v; auto_dim_eyes := auto_dim_eyes w;
     display_active := display_active w; scheduled := scheduled w;
     sched_log := sched_log w; emitted := emitted w; reads := reads w |}.

Definition set_auto_dim_eyes (v : bool) (w : World) : World :=
  {| idle_count := idle_count w; hourglass_info := hourglass_info w;
     interaction_id := interaction_id w; has_show_page := has_show_page w;
     auto_brightness := auto_brightness w; auto_dim_eyes := v;
     display_active := display_active w; scheduled := scheduled w;
     sched_log := sched_log w; emitted := emitted w; reads := reads w |}.

Definition set_display_active (v : string) (w : World) : World :=
  {| idle_count := idle_count w; hourglass_info := hourglass_info w;
     interaction_id := interaction_id w; has_show_page := has_show_page w;
     auto_brightness := auto_brightness w; auto_dim_eyes := auto_dim_eyes w;
     display_active := v; scheduled := scheduled w;
     sched_log := sched_log w; emitted := emitted w; reads := reads w |}.

Definition set_scheduled (v : list Timer) (w : World) : World :=
  {| idle_count := idle_count w; hourglass_info := hourglass_info w;
     interaction_id := interaction_id w; has_show_page := has_show_page w;
     auto_brightness := auto_brightness w; auto_dim_eyes := auto_dim_eyes w;
     display_active := display_active w; scheduled := v;
     sched_log := sched_log w; emitted := emitted w; reads := reads w |}.

Definition set_sched_log (v : list SchedCall) (w : World) : World :=
  {| idle_count := idle_count w; hourglass_info := hourglass_info w;
     interaction_id := interaction_id w; has_show_page := has_show_page w;
     auto_brightness := auto_brightness w; auto_dim_eyes := auto_dim_eyes w;
     display_active := display_active w; scheduled := scheduled w;
     sched_log := v; emitted := emitted w; reads := reads w |}.

Definition set_emitted (v : list Command) (w : World) : World :=
  {| idle_count := idle_count w; hourglass_info := hourglass_info w;
     interaction_id := interaction_id w; has_show_page := has_show_page w;
     auto_brightness := auto_brightness w; auto_dim_eyes := auto_dim_eyes w;
     display_active := display_active w; scheduled := scheduled w;
     sched_log := sched_log w; emitted := v; reads := reads w |}.

Definition set_reads (v : nat) (w : World) : World :=
  {| idle_count := idle_count w; hourglass_info := hourglass_info w;
     interaction_id := interaction_id w; has_show_page := has_show_page w;
     auto_brightness := auto_brightness w; auto_dim_eyes := auto_dim_eyes w;
     display_active := display_active w; scheduled := scheduled w;
     sched_log := sched_log w; emitted := emitted w; reads := v |}.

(** ** The handler monad: state, and exceptions that keep the state *)

Definition M (A : Type) : Type := World -> Res A * World.

Definition ret {A} (a : A) : M A := fun w => (Ok a, w).

Definition bind {A B} (m : M A) (k : A -> M B) : M B :=
  fun w =>
    match m w with
    | (Ok a, w') => k a w'
    | (Raise e, w') => (Raise e, w')
    end.

#[export] Instance M_ret : MRet M := @ret.
#[export] Instance M_bind : MBind M := fun A B k m => bind m k.

Definition get : M World := fun w => (Ok w, w).
Definition modify (f : World -> World) : M unit := fun w => (Ok tt, f w).
Definition raise {A} (e : Exn) : M A := fun w => (Raise e, w).
Definition lift {A} (r : Res A) : M A := fun w => (r, w).

(** [try: body except: handler] with a bare [except]. *)
Definition try_except {A} (body handler : M A) : M A :=
  fun w =>
    match body w with
    | (Ok a, w') => (Ok a, w')
    | (Raise _, w') => handler w'
    end.

(** The world a handler leaves behind, whether it returned or raised. *)
Definition exec {A} (m : M A) (w : World) : World := snd (m w).

Definition emit (c : Command) : M unit :=
  modify (fun w => set_emitted (emitted w ++ [c]) w).

(** [for x in xs: acc = body(x, acc)] *)
Fixpoint for_each {A B} (xs : list A) (body : A -> B -> M B) (acc : B) : M B :=
  match xs with
  | [] => ret acc
  | x :: xs' => acc' ← body x acc; for_each xs' body acc'
  end.

(** ** The platform services used by the handlers *)

Section Platform.
Context `{Host}.

(** [arrow.now().timestamp], [datetime.now()]: one reading of the clock. *)
Definition arrow_now : M Z :=
  fun w => (Ok (clock (reads w)), set_reads (S (reads w)) w).

(** [ast_loc.sun()]: the solar events of the current day. *)
Definition ast_loc_sun : M Sun := t ← arrow_now; mret (astral_sun t).

End Platform.

Definition named (name : string) (t : Timer) : bool := String.eqb (t_name t) name.

(** [self.cancel_scheduled_event(name)]: every pending timer of that name is
    dropped; cancelling a name that is not pending changes nothing. *)
Definition cancel_scheduled_event (name : string) : M unit :=
  modify (fun w =>
    set_sched_log (sched_log w ++ [sc_cancel name])
      (set_scheduled (List.filter (fun t => negb (named name t)) (scheduled w)) w)).

(** [self.schedule_event(handler, when, data=data, name=name)]: the scheduler
    appends a one-shot timer to its pending list. *)
Definition schedule_event (cb : Callback) (when : Z) (data : string * Z) (name : string) : M unit :=
  modify (fun w =>
    set_sched_log (sched_log w ++ [sc_schedule name when])
      (set_scheduled
         (scheduled w ++ [{| t_name := name; t_callback := cb; t_when := Some when;
                             t_repeat := None; t_data := Some data |}]) w)).

(** [self.schedule_repeating_event(handler, None, frequency, name=name)]: a
    repeating timer is added unless one of that name is already pending. *)
Definition schedule_repeating_event (cb : Callback) (frequency : Z) (name : string) : M unit :=
  modify (fun w =>
    set_sched_log (sched_log w ++ [sc_repeat name frequency])
      (if existsb (named name) (scheduled w) then w
       else set_scheduled
              (scheduled w ++ [{| t_name := name; t_callback := cb; t_when := None;
                                  t_repeat := Some frequency; t_data := None |}]) w)).

(** [d[key]] on a dictionary kept in insertion order. *)
Fixpoint getitem {V} (d : list (string * V)) (key : string) : Res V :=
  match d with
  | [] => Raise KeyError
  | (k, v) :: d' => if String.eqb k key then Ok v else getitem d' key
  end.

(** ** The skill *)

Definition IDLE_CHECK_FREQUENCY : Z := 6.

(** The state [__init__] leaves: the idle counter starts high, no timer is
    pending and nothing was emitted. *)
Definition __init__ : World :=
  {| idle_count := 99; hourglass_info := ∅; interaction_id := 0;
     has_show_page := false; auto_brightness := None; auto_dim_eyes := true;
     display_active := ""; scheduled := []; sched_log := []; emitted := [];
     reads := 0 |}.

(** The two handler names the busy tracker ignores. *)
Definition ignored (handler : string) : bool :=
  Py.contains "Mark2" handler || Py.contains "TimeSkill.update_display" handler.

(** [self.hourglass_info[handler]] *)
Definition hourglass_get (handler : string) : M Z :=
  w ← get;
  match hourglass_info w !! handler with
  | Some v => mret v
  | None => raise KeyError
  end.

Definition hourglass_set (handler : string) (v : Z) : M unit :=
  modify (fun w => set_hourglass_info (<[handler := v]> (hourglass_info w)) w).

(** *** Busy visual *)

Definition on_handler_started (handler : string) : M unit :=
  if Py.contains "Mark2" handler then mret tt
  else if Py.contains "TimeSkill.update_display" handler then mret tt
  else
    modify (set_has_show_page false);;
    w ← get;
    hourglass_set handler (interaction_id w);;
    (* time.sleep(0.25) is commented out in the source *)
    v ← hourglass_get handler;
    w ← get;
    if v =? interaction_id w
    then hourglass_set handler (-1)
         (* self.gui.show_page("thinking.qml") is commented out in the source *)
    else mret tt.

Definition on_gui_page_show (handler : string) : M unit :=
  if negb (Py.contains "Mark2" handler)
  then modify (set_has_show_page true)
  else mret tt.

Definition on_handler_interactingwithuser : M unit :=
  modify (fun w => set_interaction_id (interaction_id w + 1) w).

Definition on_handler_complete (handler : string) : M unit :=
  if Py.contains "Mark2" handler then mret tt
  else if Py.contains "TimeSkill.update_display" handler then mret tt
  else
    try_except
      (v ← hourglass_get handler;
       (if v =? -1 then emit enclosure_reset else mret tt);;
       (* del self.hourglass_info[handler] *)
       _ ← hourglass_get handler;
       modify (fun w => set_hourglass_info (delete handler (hourglass_info w)) w))
      (mret tt).

(** *** Speaking visual *)

(** [code] is [message.data["code"]], [None] when the key is missing. *)
Definition on_handler_speaking (code : option string) : M unit :=
  w ← get;
  if negb (has_show_page w) then
    c ← lift (match code with Some c => Ok c | None => Raise KeyError end);
    emit (gui_set "viseme" c);;
    emit (show_page "speaking.qml")
  else mret tt.

(** *** Idle visual state *)

Definition start_idle_check : M unit :=
  cancel_scheduled_event "IdleCheck";;
  w ← get;
  if auto_dim_eyes w
  then schedule_repeating_event cb_check_for_idle IDLE_CHECK_FREQUENCY "IdleCheck"
  else mret tt.

Definition check_for_idle : M unit :=
  w ← get;
  if negb (auto_dim_eyes w) then cancel_scheduled_event "IdleCheck"
  else if String.eqb (display_active w) "" then
    modify (fun w => set_idle_count (idle_count w + 1) w);;
    w ← get;
    if idle_count w =? 2 then emit (show_page "idle.qml")
    else if idle_count w >? 2 then
      cancel_scheduled_event "IdleCheck";;
      emit (show_page "resting.qml")
    else mret tt
  else modify (set_idle_count 0).

Definition handle_listener_started : M unit :=
  w ← get;
  (if negb (auto_dim_eyes w) then cancel_scheduled_event "IdleCheck"
   else if idle_count w >? 2 then
     modify (set_idle_count 0);;
     start_idle_check
   else mret tt);;
  emit (show_page "listening.qml").

Definition handle_listener_ended : M unit := emit (show_page "thinking.qml").

Definition handle_failed_stt : M unit := emit (show_page "idle.qml").

Definition handle_internet_connected : M unit := emit mouth_reset.

(** [connected] is the answer of [mycroft.util.connected()]. *)
Definition reset_face (connected : bool) : M unit :=
  if connected then emit mouth_reset else mret tt.

(** The part of [initialize] that touches the modelled state. *)
Definition initialize : M unit := start_idle_check.

(** *** Brightness *)

(** [int(float(percent)/float(100)*30)] *)
Definition percent_to_level (percent : Z) : Res Z :=
  res_bind (Float.of_int percent) (fun p =>
  Float.to_int (Float.mul (Float.div p Float.f100) Float.f30)).

(** [int(float(level)*float(100)/float(30))], the percentage
    [set_eye_brightness] speaks; [int((i*100.0)/30.0)] in [parse_brightness]
    is the same computation. *)
Definition level_to_percent (level : Z) : Res Z :=
  res_bind (Float.of_int level) (fun l =>
  Float.to_int (Float.div (Float.mul l Float.f100) Float.f30)).

Section Brightness.
Context `{Host}.

(** The body of the [try] block of [parse_brightness]; [Ok None] is the
    explicit [return None]. *)
Definition parse_brightness_try (brightness : string) : Res (option Z) :=
  let name := normalize brightness in
  match brightness_dict !! name with
  | Some v => Ok (Some v)
  | None =>
      if Py.contains "%" brightness then
        res_bind (Py.int (Py.strip (Py.replace "%" "" brightness)))
                 (fun i => Ok (Some i))
      else if Py.contains "percent" brightness then
        res_bind (Py.int (Py.strip (Py.replace "percent" "" brightness)))
                 (fun i => Ok (Some i))
      else
        res_bind (Py.int brightness) (fun i =>
        if (i <? 0) || (i >? 100) then Ok None
        else if i <? 30 then res_bind (level_to_percent i) (fun p => Ok (Some p))
        else Ok (Some i))
  end.

(** [parse_brightness]: the bare [except] turns every exception into
    [None]. *)
Definition parse_brightness (brightness : string) : option Z :=
  match parse_brightness_try brightness with
  | Ok r => r
  | Raise _ => None
  end.

Definition set_eye_brightness (level : option Z) (speak : bool) : M unit :=
  emit (eyes_brightness level);;
  if speak then
    l ← lift (match level with Some l => Ok l | None => Raise TypeError end);
    percent ← lift (level_to_percent l);
    emit (speak_dialog "brightness.set" (Some (pretty percent ++ "%")%string))
  else mret tt.

(** [_get_auto_time]: the three solar events with their levels, in the
    order of the dictionary literal. *)
Definition _get_auto_time : M (list (string * (Z * Z))) :=
  t ← arrow_now;
  let device := device_tz in
  let user := user_set_tz t in
  if String.eqb user device.1 || String.eqb user device.2 then
    s1 ← ast_loc_sun; s2 ← ast_loc_sun; s3 ← ast_loc_sun;
    mret [("Sunrise", (sunrise s1, 20)); ("Noon", (noon s2, 30));
          ("Sunset", (sunset s3, 5))]
  else
    s1 ← ast_loc_sun; s2 ← ast_loc_sun; s3 ← ast_loc_sun;
    mret [("Sunrise", (shift_as_utc tz_offset (sunrise s1), 20));
          ("Noon", (shift_as_utc tz_offset (noon s2), 30));
          ("Sunset", (shift_as_utc tz_offset (sunset s3), 5))].

(** [schedule_brightness]: instants already passed are moved 24 hours
    ahead (86400 seconds). *)
Definition schedule_brightness (time_of_day : string) (pair : Z * Z) : M unit :=
  let d_time := pair.1 in
  let brightness := pair.2 in
  now ← arrow_now;
  let data := (time_of_day, brightness) in
  if now >? d_time then
    schedule_event cb_handle_eye_brightness_event (d_time + 86400) data time_of_day
  else
    schedule_event cb_handle_eye_brightness_event d_time data time_of_day.

(** [abs(now - t) < nearest_time_to_now[0]], where the first component
    starts as [float('inf')], here [None]. *)
Definition nearer (now t : Z) (nearest : option Z * option Z * option string) : bool :=
  match nearest.1.1 with
  | None => true
  | Some d => Z.abs (now - t) <? d
  end.

Definition handle_auto_brightness : M unit :=
  modify (set_auto_brightness (Some true));;
  auto_time ← _get_auto_time;
  nearest_time_to_now ←
    for_each auto_time
      (fun item nearest =>
         let time_of_day := item.1 in
         let pair := item.2 in
         schedule_brightness time_of_day pair;;
         now ← arrow_now;
         let t := pair.1 in
         if nearer now t nearest
         then mret (Some (Z.abs (now - t)), Some pair.2, Some time_of_day)
         else mret nearest)
      (None, None, None);
  set_eye_brightness nearest_time_to_now.1.2 false.

Definition _set_brightness (brightness : string) : M unit :=
  match parse_brightness brightness with
  | None => emit (speak_dialog "brightness.not.found.final" None)
  | Some percent =>
      if percent =? -1 then handle_auto_brightness
      else
        modify (set_auto_brightness (Some false));;
        level ← lift (percent_to_level percent);
        set_eye_brightness (Some level) true
  end.

(** [brightness] is [message.data.get('brightness')], [response] what the
    user answers when asked. *)
Definition handle_brightness (brightness response : option string) : M unit :=
  b ← match brightness return M (option string) with
      | Some (String c r) => mret (Some (String c r))
      | _ => emit (get_response "brightness.not.found");; mret response
      end;
  match b with
  | Some (String c r) => _set_brightness (String c r)
  | _ => mret tt
  end.

(** [data] is [message.data], the pair the timer was scheduled with. *)
Definition _handle_eye_brightness_event (data : string * Z) : M unit :=
  w ← get;
  flag ← lift (match auto_brightness w with
               | Some b => Ok b
               | None => Raise AttributeError
               end);
  if (flag : bool) then
    let time_of_day := data.1 in
    let level := data.2 in
    cancel_scheduled_event time_of_day;;
    set_eye_brightness (Some level) false;;
    auto_time ← _get_auto_time;
    pair ← lift (getitem auto_time time_of_day);
    schedule_brightness time_of_day pair
  else mret tt.

(** ** The reactor *)

(** What can happen to the skill: bus messages, scheduler firings, and
    changes of the surroundings it reads. *)
Inductive Event : Set :=
| handler_start (handler : string)
| handler_complete (handler : string)
| user_output
| mouth_viseme (code : option string)
| gui_page_show (handler : string)
| record_begin
| record_end
| stt_unknown
| internet_connected
| skills_initialized (connected : bool)
| brightness_intent (brightness response : option string)
| brightness_auto_intent
| timer_fired (name : string)
| setting_auto_dim (v : bool)
| display_changed (page : string).

(** The scheduler takes the first pending timer of a name; a one-shot
    timer leaves the pending list, a repeating one stays. *)
Fixpoint take_timer (name : string) (l : list Timer) : option (Timer * list Timer) :=
  match l with
  | [] => None
  | t :: l' =>
      if named name t then
        Some (t, match t_repeat t with Some _ => t :: l' | None => l' end)
      else
        match take_timer name l' with
        | Some (x, r) => Some (x, t :: r)
        | None => None
        end
  end.

Definition fire (name : string) : M unit :=
  w ← get;
  match take_timer name (scheduled w) with
  | None => mret tt
  | Some (t, rest) =>
      modify (set_scheduled rest);;
      match t_callback t with
      | cb_check_for_idle => check_for_idle
      | cb_handle_eye_brightness_event =>
          data ← lift (match t_data t with
                       | Some d => Ok d
                       | None => Raise TypeError
                       end);
          _handle_eye_brightness_event data
      end
  end.

Definition dispatch (e : Event) : M unit :=
  match e with
  | handler_start h => on_handler_started h
  | handler_complete h => on_handler_complete h
  | user_output => on_handler_interactingwithuser
  | mouth_viseme code => on_handler_speaking code
  | gui_page_show h => on_gui_page_show h
  | record_begin => handle_listener_started
  | record_end => handle_listener_ended
  | stt_unknown => handle_failed_stt
  | internet_connected => handle_internet_connected
  | skills_initialized c => reset_face c
  | brightness_intent b r => handle_brightness b r
  | brightness_auto_intent => handle_auto_brightness
  | timer_fired name => fire name
  | setting_auto_dim v => modify (set_auto_dim_eyes v)
  | display_changed page => modify (set_display_active page)
  end.

(** Events are handled one at a time, in arrival order; an exception
    ends the handler and keeps what it had done. *)
Definition run (events : list Event) (w : World) : World :=
  fold_left (fun w e => exec (dispatch e) w) events w.

End Brightness.

(** ** Reference points for the statements *)

(** The timer [start_idle_check] arms. *)
Definition idle_timer : Timer :=
  {| t_name := "IdleCheck"; t_callback := cb_check_for_idle; t_when := None;
     t_repeat := Some IDLE_CHECK_FREQUENCY; t_data := None |}.

(** The periodic idle timer is what the scheduler fires under the name
    "IdleCheck", and firing leaves it pending. *)
Definition idle_check_armed (w : World) : Prop :=
  take_timer "IdleCheck" (scheduled w) = Some (idle_timer, scheduled w).

(** Pending timers of a given name. *)
Definition pending (name : string) (w : World) : nat :=
  length (List.filter (named name) (scheduled w)).

Definition is_thinking (c : Command) : bool :=
  match c with
  | show_page page => String.eqb page "thinking.qml"
  | _ => false
  end.

(** Requests for the "thinking" page among the commands sent. *)
Definition thinking_requests (cs : list Command) : nat :=
  length (List.filter is_thinking cs).

(** [int(s)], with a failure read as "invalid". *)
Definition int_or_invalid (s : string) : option Z :=
  match Py.int s with
  | Ok i => Some i
  | Raise _ => None
  end.

(** [parseBrightness] as the specification words it, over exact integer
    arithmetic: named term, then "%" marker, then "percent" marker, then a
    bare integer read as a level below 30 and as a percentage from 30 on. *)
Definition parseBrightness_spec `{Host} (text : string) : option Z :=
  match brightness_dict !! normalize text with
  | Some percent => Some percent
  | None =>
      if Py.contains "%" text then
        int_or_invalid (Py.strip (Py.replace "%" "" text))
      else if Py.contains "percent" text then
        int_or_invalid (Py.strip (Py.replace "percent" "" text))
      else
        match Py.int text with
        | Raise _ => None
        | Ok i =>
            if (i <? 0) || (100 <? i) then None
            else if i <? 30 then Some (i * 100 / 30)
            else Some i
        end
  end.

(** The text [handle_brightness] passes on: the utterance's own brightness
    when it has one, the user's answer otherwise, nothing when both are
    missing or empty. *)
Definition heard (brightness response : option string) : option string :=
  match brightness with
  | Some (String c r) => Some (String c r)
  | _ =>
      match response with
      | Some (String c r) => Some (String c r)
      | _ => None
      end
  end.

(** Events that switch automatic brightness on. *)
Definition enables_auto `{Host} (e : Event) : bool :=
  match e with
  | brightness_auto_intent => true
  | brightness_intent b r =>
      match heard b r with
      | Some text =>
          match parse_brightness text with
          | Some percent => percent =? -1
          | None => false
          end
      | None => false
      end
  | _ => false
  end.

(** The solar events [_get_auto_time] computes when asked in world [w]. *)
Definition auto_time_at `{Host} (w : World) : list (string * (Z * Z)) :=
  match fst (_get_auto_time w) with
  | Ok auto_time => auto_time
  | Raise _ => []
  end.

(** The instant [schedule_brightness] hands to the scheduler. *)
Definition shifted (now t : Z) : Z := if now >? t then t + 86400 else t.

(** The timer [schedule_brightness] creates. *)
Definition solar_timer (name : string) (when level : Z) : Timer :=
  {| t_name := name; t_callback := cb_handle_eye_brightness_event;
     t_when := Some when; t_repeat := None; t_data := Some (name, level) |}.

(** The level the loop of [handle_auto_brightness] ends with, from the
    distances of sunrise, noon and sunset: a later event replaces an earlier
    one only when it is strictly nearer. *)
Definition nearest_level (d1 d2 d3 : Z) : Z :=
  if d2 <? d1 then (if d3 <? d2 then 5 else 30)
  else (if d3 <? d1 then 5 else 20).

(** A sample installation: a device on UTC whose sun rises at 06:00, stands
    highest at 12:00 and sets at 18:00 of the first day of the epoch; the
    locale names three brightness terms and the text is already normal. *)
Definition greenwich (clk : nat -> Z) : Host :=
  {| normalize := fun s => s;
     brightness_dict := list_to_map [("full", 100); ("half", 50); ("auto", -1)];
     clock := clk;
     astral_sun := fun _ => {| sunrise := 21600; noon := 43200; sunset := 64800 |};
     user_set_tz := fun _ => "UTC";
     device_tz := ("UTC", "UTC");
     tz_offset := 0;
     shift_as_utc := fun o t => t |}.

(** [r] is the value [z], as a test. *)
Definition res_eqb (r : Res Z) (z : Z) : bool :=
  match r with
  | Ok a => a =? z
  | Raise _ => false
  end.

(** Unfolds the monad operations so that a handler run on a world reduces. *)
Ltac step_monad :=
  unfold exec, mbind, M_bind, bind, mret, M_ret, ret, get, modify, raise, lift,
    emit, try_except in *.

(** ** Reference points for the handlers taken together *)

(** The fields the busy tracker and the idle machine own are the same in
    [w] and [w']. *)
Definition tracker_frame (w w' : World) : Prop :=
  idle_count w' = idle_count w /\
  hourglass_info w' = hourglass_info w /\
  interaction_id w' = interaction_id w /\
  has_show_page w' = has_show_page w /\
  auto_dim_eyes w' = auto_dim_eyes w /\
  display_active w' = display_active w.

(** A handler start the busy tracker accepts. *)
Definition accepted_start `{Host} (e : Event) : bool :=
  match e with
  | handler_start h => negb (ignored h)
  | _ => false
  end.

Definition is_user_output `{Host} (e : Event) : bool :=
  match e with
  | user_output => true
  | _ => false
  end.

(** A page shown by a skill other than this one. *)
Definition shows_page `{Host} (e : Event) : bool :=
  match e with
  | gui_page_show h => negb (Py.contains "Mark2" h)
  | _ => false
  end.

(** The start or the completion of the handler [h]. *)
Definition concerns `{Host} (h : string) (e : Event) : bool :=
  match e with
  | handler_start h' | handler_complete h' => String.eqb h' h
  | _ => false
  end.

(** The timers the skill creates: the idle timer, and a solar timer under
    one of the three names with the level [_get_auto_time] binds to it. *)
Definition skill_timer (t : Timer) : Prop :=
  t = idle_timer \/
  exists when, t = solar_timer "Sunrise" when 20 \/
               t = solar_timer "Noon" when 30 \/
               t = solar_timer "Sunset" when 5.

(** What holds of the pending timers and of the idle counter in every
    world the skill can reach. *)
Definition steady (w : World) : Prop :=
  Forall skill_timer (scheduled w) /\
  (pending "IdleCheck" w <= 1)%nat /\
  (auto_brightness w = None -> Forall (fun t => t = idle_timer) (scheduled w)) /\
  0 <= idle_count w.

(** [percent_to_level percent] is a level above 30, as a test. *)
Definition above_range (percent : Z) : bool :=
  match percent_to_level percent with
  | Ok level => 30 <? level
  | Raise _ => false
  end.

(** [percent_to_level percent] is a level below 0, as a test. *)
Definition below_range (percent : Z) : bool :=
  match percent_to_level percent with
  | Ok level => level <? 0
  | Raise _ => false
  end.

(** The percentage [percent_to_level] turns into [level] with least
    effort: [level*100/30] rounded up. *)
Definition least_percent (level : Z) : Z := (level * 100 + 29) / 30.

(** ** The listeners on the message bus *)

(** The methods of the skill that [initialize] attaches with [bus.on]. *)
Inductive Method : Set :=
| m_on_handler_started
| m_on_handler_complete
| m_on_handler_interactingwithuser
| m_on_handler_speaking
| m_on_gui_page_show
| m_reset_face.

(** The listeners of the bus, in the order they were attached. *)
Definition Bus : Type := list (string * Method).

Definition listener_eqb (a b : string * Method) : bool :=
  String.eqb a.1 b.1 &&
  match a.2, b.2 with
  | m_on_handler_started, m_on_handler_started
  | m_on_handler_complete, m_on_handler_complete
  | m_on_handler_interactingwithuser, m_on_handler_interactingwithuser
  | m_on_handler_speaking, m_on_handler_speaking
  | m_on_gui_page_show, m_on_gui_page_show
  | m_reset_face, m_reset_face => true
  | _, _ => false
  end.

(** [self.bus.on(event, method)] *)
Definition bus_on (event : string) (method : Method) (bus : Bus) : Bus :=
  bus ++ [(event, method)].

(** [self.bus.remove(event, method)]: the first such listener is taken
    off; when there is none the bus is left as it is. *)
Fixpoint bus_remove (event : string) (method : Method) (bus : Bus) : Bus :=
  match bus with
  | [] => []
  | l :: bus' =>
      if listener_eqb l (event, method) then bus'
      else l :: bus_remove event method bus'
  end.

(** The [bus.on] calls of [initialize], in order. *)
Definition initialize_bus (bus : Bus) : Bus :=
  bus_on "mycroft.skills.initialized" m_reset_face
    (bus_on "gui.page.show" m_on_gui_page_show
    (bus_on "enclosure.mouth.viseme" m_on_handler_speaking
    (bus_on "enclosure.mouth.text" m_on_handler_interactingwithuser
    (bus_on "enclosure.mouth.events.deactivate" m_on_handler_interactingwithuser
    (bus_on "enclosure.mouth.think" m_on_handler_interactingwithuser
    (bus_on "recognizer_loop:audio_output_start" m_on_handler_interactingwithuser
    (bus_on "mycroft.skill.handler.complete" m_on_handler_complete
    (bus_on "mycroft.skill.handler.start" m_on_handler_started bus)))))))).

(** The [bus.remove] calls of [shutdown], in order. *)
Definition shutdown_bus (bus : Bus) : Bus :=
  bus_remove "enclosure.mouth.viseme" m_on_handler_speaking
    (bus_remove "enclosure.mouth.text" m_on_handler_interactingwithuser
    (bus_remove "enclosure.mouth.events.deactivate" m_on_handler_interactingwithuser
    (bus_remove "enclosure.mouth.think" m_on_handler_interactingwithuser
    (bus_remove "recognizer_loop:audio_output_start" m_on_handler_interactingwithuser
    (bus_remove "mycroft.skill.handler.complete" m_on_handler_complete
    (bus_remove "mycroft.skill.handler.start" m_on_handler_started bus)))))).

(** How many times a listener is attached. *)
Definition attached (event : string) (method : Method) (bus : Bus) : nat :=
  length (List.filter (fun l => listener_eqb l (event, method)) bus).

(** The listeners [shutdown] takes off. *)
Definition detached_by_shutdown : list (string * Method) :=
  [("mycroft.skill.handler.start", m_on_handler_started);
   ("mycroft.skill.handler.complete", m_on_handler_complete);
   ("recognizer_loop:audio_output_start", m_on_handler_interactingwithuser);
   ("enclosure.mouth.think", m_on_handler_interactingwithuser);
   ("enclosure.mouth.events.deactivate", m_on_handler_interactingwithuser);
   ("enclosure.mouth.text", m_on_handler_interactingwithuser);
   ("enclosure.mouth.viseme", m_on_handler_speaking)].

(** * Properties *)

Example py_int_ex : (Py.int " 42 ", Py.int "-1", Py.int "1_0", Py.int "1__0", Py.int "", Py.int "4 2", Py.int "+7")
  = (Ok 42, Ok (-1), Ok 10, Raise ValueError, Raise ValueError, Raise ValueError, Ok 7).
Proof. vm_compute. reflexivity. Qed.

Example py_str_ex : (Py.replace "percent" "" "50 percent", Py.strip (Py.replace "%" "" " 5%0% "), Py.contains "Mark2" "xMark2.y", Py.contains "%" "abc")
  = ("50 ", "50", true, false).
Proof. vm_compute. reflexivity. Qed.

Example py_int_separator :
  Py.int (String (ascii_of_nat 31) "42") = Raise ValueError /\
  Py.strip (String (ascii_of_nat 31) "42") = "42" /\
  Py.int (String (ascii_of_nat 160) "42") = Ok 42.
Proof. repeat split; vm_compute; reflexivity. Qed.

(** ** Arithmetic of the brightness scale *)

(** A property checked on every integer of a range holds on the range. *)
Lemma Z_range_forallb (P : Z -> bool) (lo : Z) (n : nat) :
  forallb P (List.map (fun k => lo + Z.of_nat k) (seq 0 n)) = true ->
  forall z, lo <= z < lo + Z.of_nat n -> P z = true.
Proof.
  intros Hall z Hz.
  rewrite forallb_forall in Hall.
  apply Hall.
  apply in_map_iff.
  exists (Z.to_nat (z - lo)). split.
  - lia.
  - apply in_seq. lia.
Qed.

Lemma res_eqb_eq (r : Res Z) (z : Z) : res_eqb r z = true -> r = Ok z.
Proof.
  destruct r as [a|e]; simpl; [|discriminate].
  intros Ha. apply Z.eqb_eq in Ha. now subst.
Qed.

Lemma percent_to_level_exact (percent : Z) :
  0 <= percent <= 100 -> percent_to_level percent = Ok (percent * 30 / 100).
Proof.
  intros Hp. apply res_eqb_eq.
  apply (Z_range_forallb (fun p => res_eqb (percent_to_level p) (p * 30 / 100)) 0 101).
  - vm_compute. reflexivity.
  - lia.
Qed.

Lemma level_to_percent_exact (level : Z) :
  0 <= level <= 30 -> level_to_percent level = Ok (level * 100 / 30).
Proof.
  intros Hl. apply res_eqb_eq.
  apply (Z_range_forallb (fun l => res_eqb (level_to_percent l) (l * 100 / 30)) 0 31).
  - vm_compute. reflexivity.
  - lia.
Qed.

(** The round trip of a level through its percentage, on the whole scale:
    [percent_to_level] sends a percentage of 0..100 to the whole part of
    [percent * 30 / 100], [level_to_percent] sends a level of 0..30 to the
    whole part of [level * 100 / 30], and a level that is no multiple of 3
    comes back one lower. *)
Lemma level_percent_round_trip (level percent : Z)
    (Hlevel : 0 <= level <= 30) (Hpercent : 0 <= percent <= 100) :
  percent_to_level percent = Ok (percent * 30 / 100) /\
  0 <= percent * 30 / 100 <= 30 /\
  level_to_percent level = Ok (level * 100 / 30) /\
  res_bind (level_to_percent level) percent_to_level
    = Ok (if level mod 3 =? 0 then level else level - 1).
Proof.
  split; [now apply percent_to_level_exact|].
  split.
  { split.
    - apply Z.div_pos; lia.
    - apply Z.div_le_upper_bound; lia. }
  split; [now apply level_to_percent_exact|].
  apply res_eqb_eq.
  apply (Z_range_forallb
           (fun l => res_eqb (res_bind (level_to_percent l) percent_to_level)
                             (if l mod 3 =? 0 then l else l - 1)) 0 31).
  - vm_compute. reflexivity.
  - lia.
Qed.

(** C4 (the code departs from it).  Converting a level to its percentage
    and back does not give the level again: level 1 comes back as 0 and
    level 7 as 6, and of the levels 0..30 only the multiples of 3 come back
    unchanged.  This is the path of a bare number, which [parse_brightness]
    takes for a level: asked for "7" the skill sets level 6 and asked for
    "1" it sets level 0. *)
Theorem C4_bare_level_comes_back_lower :
  res_bind (level_to_percent 1) percent_to_level = Ok 0 /\
  res_bind (level_to_percent 7) percent_to_level = Ok 6 /\
  List.filter
    (fun level => res_eqb (res_bind (level_to_percent level) percent_to_level) level)
    (List.map Z.of_nat (seq 0 31))
    = [0; 3; 6; 9; 12; 15; 18; 21; 24; 27; 30] /\
  parse_brightness (H := greenwich (fun _ => 0)) "7" = Some 23 /\
  emitted (exec (_set_brightness (H := greenwich (fun _ => 0)) "7") __init__)
    = [eyes_brightness (Some 6); speak_dialog "brightness.set" (Some "20%")] /\
  emitted (exec (_set_brightness (H := greenwich (fun _ => 0)) "1") __init__)
    = [eyes_brightness (Some 0); speak_dialog "brightness.set" (Some "0%")].
Proof.
  repeat split; vm_compute; reflexivity.
Qed.

(** ** Reading a brightness *)

Section ParseBrightness.
Context `{Host}.

Lemma parse_brightness_unfold (text : string) :
  parse_brightness text = parseBrightness_spec text.
Proof.
  unfold parse_brightness, parseBrightness_spec, parse_brightness_try, int_or_invalid.
  destruct (brightness_dict !! normalize text) as [v|]; [reflexivity|].
  destruct (Py.contains "%" text).
  { destruct (Py.int _); reflexivity. }
  destruct (Py.contains "percent" text).
  { destruct (Py.int _); reflexivity. }
  destruct (Py.int text) as [i|e]; [|reflexivity]. simpl.
  rewrite Z.gtb_ltb.
  destruct (i <? 0) eqn:Hneg; [reflexivity|].
  destruct (100 <? i) eqn:Hbig; [reflexivity|]. simpl.
  destruct (i <? 30) eqn:Hlow; [|reflexivity].
  apply Z.ltb_ge in Hneg. apply Z.ltb_lt in Hlow.
  rewrite level_to_percent_exact by lia. reflexivity.
Qed.

End ParseBrightness.

(** C2.  [parse_brightness] agrees with the reading the specification
    gives: the named-term table first, then the "%" and "percent" markers
    stripped and parsed, then a bare integer, invalid outside 0..100, a level
    turned into [i*100/30] percent below 30 and a percentage from 30 on; a
    text that does not parse is invalid.  When the four sample texts are
    not named terms, "50%" reads 50, "15" reads 50, "45" reads 45 and "150"
    is invalid. *)
Theorem C2_parse_brightness `{Host}
    (Hunnamed : forall text, In text ["50%"; "15"; "45"; "150"] ->
                  brightness_dict !! normalize text = None) :
  (forall text, parse_brightness text = parseBrightness_spec text) /\
  parse_brightness "50%" = Some 50 /\
  parse_brightness "15" = Some 50 /\
  parse_brightness "45" = Some 45 /\
  parse_brightness "150" = None.
Proof.
  split; [apply parse_brightness_unfold|].
  repeat split; rewrite parse_brightness_unfold; unfold parseBrightness_spec;
    rewrite Hunnamed by (simpl; tauto); vm_compute; reflexivity.
Qed.

Lemma C2_parse_brightness_witness :
  (forall text, In text ["50%"; "15"; "45"; "150"] ->
     @brightness_dict (greenwich (fun _ => 0)) !! @normalize (greenwich (fun _ => 0)) text = None) /\
  @parse_brightness (greenwich (fun _ => 0)) "50%" = Some 50 /\
  @parse_brightness (greenwich (fun _ => 0)) "15" = Some 50 /\
  @parse_brightness (greenwich (fun _ => 0)) "45" = Some 45 /\
  @parse_brightness (greenwich (fun _ => 0)) "150" = None.
Proof.
  assert (Hun : forall text, In text ["50%"; "15"; "45"; "150"] ->
     @brightness_dict (greenwich (fun _ => 0)) !! @normalize (greenwich (fun _ => 0)) text = None).
  { intros text [<-|[<-|[<-|[<-|[]]]]]; vm_compute; reflexivity. }
  split; [exact Hun|].
  exact (proj2 (@C2_parse_brightness (greenwich (fun _ => 0)) Hun)).
Defined.

(** ** The busy tracker *)

Lemma ignored_false (handler : string) :
  ignored handler = false ->
  Py.contains "Mark2" handler = false /\
  Py.contains "TimeSkill.update_display" handler = false.
Proof. unfold ignored. intros Hh. now apply orb_false_elim in Hh. Qed.

Lemma on_handler_started_accepted (w : World) (handler : string) :
  ignored handler = false ->
  on_handler_started handler w =
    (Ok tt, set_hourglass_info
              (<[handler := -1]> (<[handler := interaction_id w]> (hourglass_info w)))
              (set_has_show_page false w)).
Proof.
  intros Hh. apply ignored_false in Hh as [Hself Hclock].
  unfold on_handler_started, hourglass_set, hourglass_get.
  rewrite Hself, Hclock. step_monad. cbn.
  rewrite lookup_insert_eq. cbn.
  rewrite Z.eqb_refl. reflexivity.
Qed.

Lemma on_handler_started_ignored (w : World) (handler : string) :
  ignored handler = true -> on_handler_started handler w = (Ok tt, w).
Proof.
  unfold ignored, on_handler_started. intros Hh.
  destruct (Py.contains "Mark2" handler); [reflexivity|].
  simpl in Hh. rewrite Hh. reflexivity.
Qed.

Lemma run_user_output `{Host} (n : nat) (w : World) :
  emitted (run (repeat user_output n) w) = emitted w.
Proof.
  revert w. induction n as [|n IH]; intros w; [reflexivity|].
  cbn [repeat]. change (run (user_output :: repeat user_output n) w)
    with (run (repeat user_output n) (exec (dispatch user_output) w)).
  rewrite IH. reflexivity.
Qed.

(** C1 (as amended).  A handler-start event for a handler that is not
    ignored sends no page request, whether or not user-facing output
    follows it; the "thinking" page is requested, once, by the end of
    listening. *)
Theorem C1_handler_start_requests_no_page `{Host}
    (w : World) (handler : string) (n : nat) (Hh : ignored handler = false) :
  emitted (run (handler_start handler :: repeat user_output n) w) = emitted w /\
  thinking_requests (emitted (run (handler_start handler :: repeat user_output n) w))
    = thinking_requests (emitted w) /\
  emitted (run [record_end] w) = emitted w ++ [show_page "thinking.qml"].
Proof.
  assert (Hsame : emitted (run (handler_start handler :: repeat user_output n) w)
                  = emitted w).
  { change (run (handler_start handler :: repeat user_output n) w)
      with (run (repeat user_output n) (exec (on_handler_started handler) w)).
    rewrite run_user_output. unfold exec.
    rewrite on_handler_started_accepted by exact Hh. reflexivity. }
  split; [exact Hsame|]. split; [now rewrite Hsame|]. reflexivity.
Qed.

Lemma C1_handler_start_requests_no_page_witness :
  ignored "WeatherSkill.handle_weather" = false /\
  emitted (run (H := greenwich (fun _ => 0))
             (handler_start "WeatherSkill.handle_weather" :: repeat user_output 2)
             __init__) = [].
Proof.
  split; [vm_compute; reflexivity|].
  apply (@C1_handler_start_requests_no_page (greenwich (fun _ => 0)) __init__
           "WeatherSkill.handle_weather" 2).
  vm_compute. reflexivity.
Defined.

(** C1, as the specification states it, fails: a handler that starts and
    shows nothing to the user gets no "thinking" page request at all. *)
Lemma C1_counterexample :
  ignored "WeatherSkill.handle_weather" = false /\
  emitted (exec (on_handler_started "WeatherSkill.handle_weather") __init__) = [] /\
  thinking_requests
    (emitted (exec (on_handler_started "WeatherSkill.handle_weather") __init__)) <> 1%nat.
Proof.
  split; [vm_compute; reflexivity|].
  split; [vm_compute; reflexivity|].
  vm_compute. discriminate.
Qed.

(** C9.  For a handler that is not ignored, [on_handler_complete] returns
    without raising; when the handler has no entry the world is left as it
    was; when it has one the entry is deleted, after a reset of the
    enclosure if the entry was marked busy (-1). *)
Theorem C9_on_handler_complete (w : World) (handler : string)
    (Hh : ignored handler = false) :
  fst (on_handler_complete handler w) = Ok tt /\
  hourglass_info (exec (on_handler_complete handler) w) !! handler = None /\
  (hourglass_info w !! handler = None ->
     on_handler_complete handler w = (Ok tt, w)) /\
  (hourglass_info w !! handler = Some (-1) ->
     on_handler_complete handler w =
       (Ok tt, set_hourglass_info (delete handler (hourglass_info w))
                 (set_emitted (emitted w ++ [enclosure_reset]) w))) /\
  (forall v, hourglass_info w !! handler = Some v -> v <> -1 ->
     on_handler_complete handler w =
       (Ok tt, set_hourglass_info (delete handler (hourglass_info w)) w)).
Proof.
  apply ignored_false in Hh as [Hself Hclock].
  unfold on_handler_complete, hourglass_get.
  rewrite Hself, Hclock. step_monad.
  destruct (hourglass_info w !! handler) as [v|] eqn:Hv; cbn.
  - destruct (v =? -1) eqn:Hbusy; cbn; rewrite Hv; cbn.
    + apply Z.eqb_eq in Hbusy. subst v.
      split; [reflexivity|]. split; [apply lookup_delete_eq|].
      split; [discriminate|]. split; [reflexivity|].
      intros v [= <-] Hne. now destruct Hne.
    + apply Z.eqb_neq in Hbusy.
      split; [reflexivity|]. split; [apply lookup_delete_eq|].
      split; [discriminate|]. split.
      * intros [= ->]. now destruct Hbusy.
      * intros v' [= <-] _. reflexivity.
  - split; [reflexivity|]. split; [exact Hv|]. split; [reflexivity|].
    split; [discriminate|]. intros v' [=].
Qed.

Lemma C9_on_handler_complete_witness :
  ignored "WeatherSkill.handle_weather" = false /\
  on_handler_complete "WeatherSkill.handle_weather" __init__ = (Ok tt, __init__) /\
  emitted (exec (on_handler_complete "WeatherSkill.handle_weather")
             (exec (on_handler_started "WeatherSkill.handle_weather") __init__))
    = [enclosure_reset].
Proof.
  assert (Hh : ignored "WeatherSkill.handle_weather" = false)
    by (vm_compute; reflexivity).
  split; [exact Hh|]. split.
  - apply (C9_on_handler_complete __init__ _ Hh). reflexivity.
  - set (w := exec (on_handler_started "WeatherSkill.handle_weather") __init__).
    destruct (C9_on_handler_complete w _ Hh) as (_ & _ & _ & Hbusy & _).
    unfold exec at 1. rewrite Hbusy; [reflexivity|].
    vm_compute. reflexivity.
Defined.

(** ** The idle machine *)

Lemma take_timer_cancelled (name : string) (l : list Timer) :
  take_timer name (List.filter (fun t => negb (named name t)) l) = None.
Proof.
  induction l as [|t l IH]; [reflexivity|].
  cbn. destruct (named name t) eqn:Ht; cbn; [exact IH|].
  rewrite Ht, IH. reflexivity.
Qed.

Lemma pending_cancelled (name : string) (l : list Timer) :
  List.filter (named name) (List.filter (fun t => negb (named name t)) l) = [].
Proof.
  induction l as [|t l IH]; [reflexivity|].
  cbn. destruct (named name t) eqn:Ht; cbn; [exact IH|].
  rewrite Ht. exact IH.
Qed.

Lemma existsb_cancelled (name : string) (l : list Timer) :
  existsb (named name) (List.filter (fun t => negb (named name t)) l) = false.
Proof.
  induction l as [|t l IH]; [reflexivity|].
  cbn. destruct (named name t) eqn:Ht; cbn; [exact IH|].
  rewrite Ht. exact IH.
Qed.

Lemma take_timer_armed (l : list Timer) :
  existsb (named "IdleCheck") l = false ->
  take_timer "IdleCheck" (l ++ [idle_timer]) = Some (idle_timer, l ++ [idle_timer]).
Proof.
  induction l as [|t l IH]; [reflexivity|].
  cbn. destruct (named "IdleCheck" t); [discriminate|].
  cbn. intros Hl. rewrite (IH Hl). reflexivity.
Qed.

(** One tick of the idle timer on a quiet display. *)
Lemma idle_tick `{Host} (w : World) :
  auto_dim_eyes w = true -> display_active w = "" -> idle_check_armed w ->
  run [timer_fired "IdleCheck"] w =
    let w' := set_idle_count (idle_count w + 1) w in
    if idle_count w + 1 =? 2 then
      set_emitted (emitted w ++ [show_page "idle.qml"]) w'
    else if idle_count w + 1 >? 2 then
      set_emitted (emitted w ++ [show_page "resting.qml"])
        (set_sched_log (sched_log w ++ [sc_cancel "IdleCheck"])
           (set_scheduled
              (List.filter (fun t => negb (named "IdleCheck" t)) (scheduled w)) w'))
    else w'.
Proof.
  unfold idle_check_armed.
  destruct w as [ic hg iid hsp ab ade da sch sl em rd]. cbn.
  intros -> -> Harmed.
  unfold run, fire, check_for_idle, cancel_scheduled_event.
  step_monad. cbn. rewrite Harmed. cbn.
  destruct (ic + 1 =? 2); [reflexivity|].
  destruct (ic + 1 >? 2); reflexivity.
Qed.

Lemma run_cons `{Host} (e : Event) (es : list Event) (w : World) :
  run (e :: es) w = run es (run [e] w).
Proof. reflexivity. Qed.

Lemma idle_tick_grace `{Host} (w : World) :
  idle_count w = 0 ->
  auto_dim_eyes w = true -> display_active w = "" -> idle_check_armed w ->
  run [timer_fired "IdleCheck"] w = set_idle_count 1 w.
Proof.
  intros Hcount Hdim Hquiet Harmed.
  rewrite idle_tick by assumption. rewrite Hcount. reflexivity.
Qed.

Lemma idle_tick_dim `{Host} (w : World) :
  idle_count w = 1 ->
  auto_dim_eyes w = true -> display_active w = "" -> idle_check_armed w ->
  run [timer_fired "IdleCheck"] w
    = set_emitted (emitted w ++ [show_page "idle.qml"]) (set_idle_count 2 w).
Proof.
  intros Hcount Hdim Hquiet Harmed.
  rewrite idle_tick by assumption. rewrite Hcount. reflexivity.
Qed.

Lemma idle_tick_rest `{Host} (w : World) :
  idle_count w = 2 ->
  auto_dim_eyes w = true -> display_active w = "" -> idle_check_armed w ->
  run [timer_fired "IdleCheck"] w
    = set_emitted (emitted w ++ [show_page "resting.qml"])
        (set_sched_log (sched_log w ++ [sc_cancel "IdleCheck"])
           (set_scheduled
              (List.filter (fun t => negb (named "IdleCheck" t)) (scheduled w))
              (set_idle_count 3 w))).
Proof.
  intros Hcount Hdim Hquiet Harmed.
  rewrite idle_tick by assumption. rewrite Hcount. reflexivity.
Qed.

(** The first three ticks of the idle timer on a quiet display. *)
Lemma idle_ticks `{Host} (w : World) :
  idle_count w = 0 ->
  auto_dim_eyes w = true -> display_active w = "" -> idle_check_armed w ->
  let tick := timer_fired "IdleCheck" in
  run [tick] w = set_idle_count 1 w /\
  run [tick; tick] w
    = set_emitted (emitted w ++ [show_page "idle.qml"]) (set_idle_count 2 w) /\
  run [tick; tick; tick] w
    = set_emitted (emitted w ++ [show_page "idle.qml"; show_page "resting.qml"])
        (set_sched_log (sched_log w ++ [sc_cancel "IdleCheck"])
           (set_scheduled
              (List.filter (fun t => negb (named "IdleCheck" t)) (scheduled w))
              (set_idle_count 3 w))).
Proof.
  intros Hcount Hdim Hquiet Harmed tick.
  assert (H1 : run [tick] w = set_idle_count 1 w)
    by now apply idle_tick_grace.
  assert (H2 : run [tick; tick] w
    = set_emitted (emitted w ++ [show_page "idle.qml"]) (set_idle_count 2 w)).
  { rewrite run_cons, H1. unfold tick.
    rewrite idle_tick_dim by (cbn; assumption || reflexivity).
    destruct w; reflexivity. }
  split; [exact H1|]. split; [exact H2|].
  change (run [tick; tick; tick] w) with (run [tick] (run [tick; tick] w)).
  rewrite H2. unfold tick.
  rewrite idle_tick_rest by (cbn; assumption || reflexivity).
  destruct w; cbn. rewrite <- app_assoc. reflexivity.
Qed.

(** C5.  From a world whose idle counter stands at 0, with auto-dim on, the
    periodic timer armed and nothing on the display: the first tick counts to
    1 and sends nothing, the second sends the "idle" page, the third cancels
    the periodic timer and sends the "resting" page, and after that the
    scheduler has no idle timer left to fire. *)
Theorem C5_idle_escalation `{Host} (w : World)
    (Hcount : idle_count w = 0) (Hdim : auto_dim_eyes w = true)
    (Hquiet : display_active w = "") (Harmed : idle_check_armed w) :
  let tick := timer_fired "IdleCheck" in
  let w1 := run [tick] w in
  let w2 := run [tick; tick] w in
  let w3 := run [tick; tick; tick] w in
  idle_count w1 = 1 /\ emitted w1 = emitted w /\
  idle_count w2 = 2 /\ emitted w2 = emitted w ++ [show_page "idle.qml"] /\
  emitted w3 = emitted w2 ++ [show_page "resting.qml"] /\
  sched_log w3 = sched_log w ++ [sc_cancel "IdleCheck"] /\
  pending "IdleCheck" w3 = 0%nat /\
  run [tick] w3 = w3.
Proof.
  destruct (idle_ticks w Hcount Hdim Hquiet Harmed) as (H1 & H2 & H3).
  cbn zeta. rewrite H1, H2, H3. cbn.
  repeat (split; [reflexivity|]).
  split; [now rewrite <- app_assoc|].
  split; [reflexivity|].
  split.
  - unfold pending. cbn. now rewrite pending_cancelled.
  - unfold run, fire. step_monad. cbn.
    rewrite take_timer_cancelled. reflexivity.
Qed.

Lemma C5_idle_escalation_witness :
  let tick := timer_fired "IdleCheck" in
  let w := run (H := greenwich (fun _ => 0))
             [display_changed "weather.qml"; tick; display_changed ""]
             (exec initialize __init__) in
  idle_count w = 0 /\ auto_dim_eyes w = true /\ display_active w = "" /\
  idle_check_armed w /\
  idle_count (run (H := greenwich (fun _ => 0)) [tick] w) = 1 /\
  pending "IdleCheck" (run (H := greenwich (fun _ => 0)) [tick; tick; tick] w) = 0%nat.
Proof.
  intros tick w.
  assert (Hcount : idle_count w = 0) by (vm_compute; reflexivity).
  assert (Hdim : auto_dim_eyes w = true) by (vm_compute; reflexivity).
  assert (Hquiet : display_active w = "") by (vm_compute; reflexivity).
  assert (Harmed : idle_check_armed w) by (vm_compute; reflexivity).
  repeat (split; [assumption|]).
  destruct (@C5_idle_escalation (greenwich (fun _ => 0)) w Hcount Hdim Hquiet Harmed)
    as (H1 & _ & _ & _ & _ & _ & H3 & _).
  split; [exact H1 | exact H3].
Defined.

Lemma start_idle_check_dim (w : World) :
  auto_dim_eyes w = true ->
  exec start_idle_check w =
    set_sched_log (sched_log w ++ [sc_cancel "IdleCheck";
                                   sc_repeat "IdleCheck" IDLE_CHECK_FREQUENCY])
      (set_scheduled
         (List.filter (fun t => negb (named "IdleCheck" t)) (scheduled w) ++ [idle_timer])
         w).
Proof.
  destruct w as [ic hg iid hsp ab ade da sch sl em rd]. cbn. intros ->.
  unfold start_idle_check, cancel_scheduled_event, schedule_repeating_event.
  step_monad. cbn. rewrite existsb_cancelled. cbn.
  rewrite <- app_assoc. reflexivity.
Qed.

Lemma handle_listener_started_undimmed (w : World) :
  auto_dim_eyes w = false ->
  exec handle_listener_started w =
    set_emitted (emitted w ++ [show_page "listening.qml"])
      (set_sched_log (sched_log w ++ [sc_cancel "IdleCheck"])
         (set_scheduled
            (List.filter (fun t => negb (named "IdleCheck" t)) (scheduled w)) w)).
Proof.
  destruct w as [ic hg iid hsp ab ade da sch sl em rd]. cbn. intros ->.
  reflexivity.
Qed.

Lemma handle_listener_started_waking (w : World) :
  auto_dim_eyes w = true -> idle_count w > 2 ->
  exec handle_listener_started w =
    set_emitted (emitted w ++ [show_page "listening.qml"])
      (set_sched_log (sched_log w ++ [sc_cancel "IdleCheck";
                                      sc_repeat "IdleCheck" IDLE_CHECK_FREQUENCY])
         (set_scheduled
            (List.filter (fun t => negb (named "IdleCheck" t)) (scheduled w)
               ++ [idle_timer])
            (set_idle_count 0 w))).
Proof.
  destruct w as [ic hg iid hsp ab ade da sch sl em rd]. cbn. intros -> Hic.
  unfold handle_listener_started, start_idle_check, cancel_scheduled_event,
    schedule_repeating_event.
  step_monad. cbn.
  destruct (ic >? 2) eqn:Hgt; [|lia].
  cbn. rewrite existsb_cancelled. cbn.
  rewrite <- app_assoc. reflexivity.
Qed.

Lemma handle_listener_started_attentive (w : World) :
  auto_dim_eyes w = true -> idle_count w <= 2 ->
  exec handle_listener_started w =
    set_emitted (emitted w ++ [show_page "listening.qml"]) w.
Proof.
  destruct w as [ic hg iid hsp ab ade da sch sl em rd]. cbn. intros -> Hic.
  unfold handle_listener_started. step_monad. cbn.
  destruct (ic >? 2) eqn:Hgt; [lia|]. reflexivity.
Qed.

(** C8.  [handle_listener_started] always requests the "listening" page.
    With auto-dim off it cancels the idle timer.  With auto-dim on and the
    counter above 2 it puts the counter back to 0 and restarts the periodic
    timer, after which, on a quiet display, the first tick sends nothing and
    the second sends the "idle" page.  With auto-dim on and the counter at 2
    or less it leaves counter and timers alone. *)
Theorem C8_listener_started `{Host} (w : World) :
  let tick := timer_fired "IdleCheck" in
  let w' := exec handle_listener_started w in
  emitted w' = emitted w ++ [show_page "listening.qml"] /\
  (auto_dim_eyes w = false ->
     pending "IdleCheck" w' = 0%nat /\ idle_count w' = idle_count w) /\
  (auto_dim_eyes w = true -> idle_count w > 2 ->
     idle_count w' = 0 /\ idle_check_armed w' /\ pending "IdleCheck" w' = 1%nat /\
     (display_active w = "" ->
        emitted (run [tick] w') = emitted w' /\
        emitted (run [tick; tick] w') = emitted w' ++ [show_page "idle.qml"])) /\
  (auto_dim_eyes w = true -> idle_count w <= 2 ->
     idle_count w' = idle_count w /\ scheduled w' = scheduled w).
Proof.
  intros tick w'. subst w'.
  destruct (auto_dim_eyes w) eqn:Hdim.
  - destruct (Z_gt_le_dec (idle_count w) 2) as [Hrest|Hawake].
    + rewrite handle_listener_started_waking by assumption.
      set (w' := set_emitted _ _).
      assert (Harmed : idle_check_armed w').
      { unfold idle_check_armed. cbn.
        apply take_timer_armed, existsb_cancelled. }
      split; [reflexivity|]. split; [discriminate|]. split.
      * intros _ _. split; [reflexivity|]. split; [exact Harmed|]. split.
        { unfold pending. cbn. rewrite List.filter_app, pending_cancelled. reflexivity. }
        intros Hquiet.
        destruct (idle_ticks w') as (H1 & H2 & _);
          [reflexivity | exact Hdim | exact Hquiet | exact Harmed |].
        fold tick in H1, H2. rewrite H1, H2. split; reflexivity.
      * intros _ Hle. lia.
    + rewrite handle_listener_started_attentive by assumption.
      split; [reflexivity|]. split; [discriminate|]. split.
      * intros _ Hgt. lia.
      * intros _ _. split; reflexivity.
  - rewrite handle_listener_started_undimmed by exact Hdim.
    split; [reflexivity|]. split.
    + intros _. split; [|reflexivity].
      unfold pending. cbn. now rewrite pending_cancelled.
    + split; discriminate.
Qed.

Lemma C8_listener_started_witness :
  let tick := timer_fired "IdleCheck" in
  let resting := run (H := greenwich (fun _ => 0)) [tick] (exec initialize __init__) in
  let undimmed := run (H := greenwich (fun _ => 0)) [setting_auto_dim false] resting in
  (auto_dim_eyes resting = true /\ idle_count resting > 2 /\ display_active resting = "") /\
  auto_dim_eyes undimmed = false /\
  pending "IdleCheck" (exec handle_listener_started undimmed) = 0%nat /\
  emitted (run (H := greenwich (fun _ => 0)) [tick; tick]
             (exec handle_listener_started resting))
    = emitted (exec handle_listener_started resting) ++ [show_page "idle.qml"].
Proof.
  intros tick resting undimmed.
  assert (Hdim : auto_dim_eyes resting = true) by (vm_compute; reflexivity).
  assert (Hcount : idle_count resting > 2) by (vm_compute; reflexivity).
  assert (Hquiet : display_active resting = "") by (vm_compute; reflexivity).
  assert (Hoff : auto_dim_eyes undimmed = false) by (vm_compute; reflexivity).
  split; [repeat split; assumption|]. split; [exact Hoff|]. split.
  - destruct (@C8_listener_started (greenwich (fun _ => 0)) undimmed)
      as (_ & Hundimmed & _).
    exact (proj1 (Hundimmed Hoff)).
  - destruct (@C8_listener_started (greenwich (fun _ => 0)) resting)
      as (_ & _ & Hwaking & _).
    destruct (Hwaking Hdim Hcount) as (_ & _ & _ & Hticks).
    exact (proj2 (Hticks Hquiet)).
Defined.

(** ** Automatic brightness *)

Section AutoBrightness.
Context `{Host}.

Lemma auto_time_shape (w : World) :
  exists t1 t2 t3,
    auto_time_at w = [("Sunrise", (t1, 20)); ("Noon", (t2, 30)); ("Sunset", (t3, 5))] /\
    _get_auto_time w = (Ok (auto_time_at w), set_reads (4 + reads w) w).
Proof.
  unfold auto_time_at, _get_auto_time, ast_loc_sun, arrow_now.
  step_monad. cbn.
  destruct (_ || _); cbn; eexists _, _, _; split; reflexivity.
Qed.

(** What one run of [handle_auto_brightness] does, in terms of the three
    instants it computed and of the clock readings [c k], the [k]-th
    reading after the handler was entered. *)
Lemma handle_auto_brightness_effect (w : World) (t1 t2 t3 : Z) :
  auto_time_at w = [("Sunrise", (t1, 20)); ("Noon", (t2, 30)); ("Sunset", (t3, 5))] ->
  let c k := clock (k + reads w) in
  let w' := exec handle_auto_brightness w in
  fst (handle_auto_brightness w) = Ok tt /\
  auto_brightness w' = Some true /\
  emitted w' = emitted w ++
    [eyes_brightness
       (Some (nearest_level (Z.abs (c 5%nat - t1)) (Z.abs (c 7%nat - t2))
                            (Z.abs (c 9%nat - t3))))] /\
  scheduled w' = scheduled w ++
    [solar_timer "Sunrise" (shifted (c 4%nat) t1) 20;
     solar_timer "Noon" (shifted (c 6%nat) t2) 30;
     solar_timer "Sunset" (shifted (c 8%nat) t3) 5] /\
  sched_log w' = sched_log w ++
    [sc_schedule "Sunrise" (shifted (c 4%nat) t1);
     sc_schedule "Noon" (shifted (c 6%nat) t2);
     sc_schedule "Sunset" (shifted (c 8%nat) t3)].
Proof.
  destruct w as [ic hg iid hsp ab ade da sch sl em rd].
  unfold auto_time_at, nearest_level, shifted, solar_timer.
  unfold handle_auto_brightness, _get_auto_time, for_each, schedule_brightness,
    set_eye_brightness, schedule_event, ast_loc_sun, arrow_now, nearer.
  step_monad. cbn.
  destruct (_ || _); cbn; intros [= <- <- <-];
    repeat match goal with
           | |- context [if ?c then _ else _] => destruct c; cbn
           end;
    rewrite <- ?app_assoc; repeat split; reflexivity.
Qed.

End AutoBrightness.

(** C6.  When the clock shows [now] all through a run of
    [handle_auto_brightness], the handler sends the hardware, in that very
    run and with no spoken confirmation, the level of a solar event whose
    instant, as [_get_auto_time] computed it (before any shift by 24 hours),
    is nearest to [now] among the three. *)
Theorem C6_nearest_solar_event `{Host} (w : World) (now : Z)
    (Hclock : forall k, (k < 10)%nat -> clock (k + reads w) = now) :
  exists name t level,
    In (name, (t, level)) (auto_time_at w) /\
    (forall name' t' level', In (name', (t', level')) (auto_time_at w) ->
       Z.abs (now - t) <= Z.abs (now - t')) /\
    emitted (exec handle_auto_brightness w)
      = emitted w ++ [eyes_brightness (Some level)].
Proof.
  destruct (auto_time_shape w) as (t1 & t2 & t3 & Hshape & _).
  destruct (handle_auto_brightness_effect w t1 t2 t3 Hshape)
    as (_ & _ & Hemit & _).
  rewrite Hemit, Hshape. clear Hemit.
  rewrite !Hclock by lia.
  unfold nearest_level.
  destruct (Z.ltb_spec (Z.abs (now - t2)) (Z.abs (now - t1))) as [H21|H21].
  - destruct (Z.ltb_spec (Z.abs (now - t3)) (Z.abs (now - t2))) as [H32|H32].
    + exists "Sunset", t3, 5. split; [simpl; tauto|]. split; [|reflexivity].
      intros name' t' level' [[= <- <- <-]|[[= <- <- <-]|[[= <- <- <-]|[]]]]; lia.
    + exists "Noon", t2, 30. split; [simpl; tauto|]. split; [|reflexivity].
      intros name' t' level' [[= <- <- <-]|[[= <- <- <-]|[[= <- <- <-]|[]]]]; lia.
  - destruct (Z.ltb_spec (Z.abs (now - t3)) (Z.abs (now - t1))) as [H31|H31].
    + exists "Sunset", t3, 5. split; [simpl; tauto|]. split; [|reflexivity].
      intros name' t' level' [[= <- <- <-]|[[= <- <- <-]|[[= <- <- <-]|[]]]]; lia.
    + exists "Sunrise", t1, 20. split; [simpl; tauto|]. split; [|reflexivity].
      intros name' t' level' [[= <- <- <-]|[[= <- <- <-]|[[= <- <- <-]|[]]]]; lia.
Qed.

Lemma C6_nearest_solar_event_witness :
  (forall k, (k < 10)%nat ->
     @clock (greenwich (fun _ => 50000)) (k + reads __init__) = 50000) /\
  exists name t level,
    In (name, (t, level)) (auto_time_at (H := greenwich (fun _ => 50000)) __init__) /\
    (forall name' t' level',
       In (name', (t', level')) (auto_time_at (H := greenwich (fun _ => 50000)) __init__) ->
       Z.abs (50000 - t) <= Z.abs (50000 - t')) /\
    emitted (exec (handle_auto_brightness (H := greenwich (fun _ => 50000))) __init__)
      = emitted __init__ ++ [eyes_brightness (Some level)].
Proof.
  assert (Hclock : forall k, (k < 10)%nat ->
     @clock (greenwich (fun _ => 50000)) (k + reads __init__) = 50000)
    by (intros k _; reflexivity).
  split; [exact Hclock|].
  exact (@C6_nearest_solar_event (greenwich (fun _ => 50000)) __init__ 50000 Hclock).
Defined.

(** ** Manual brightness *)

Section ManualBrightness.
Context `{Host}.

Lemma handle_auto_brightness_enables (w : World) :
  auto_brightness (exec handle_auto_brightness w) = Some true /\
  exists level,
    emitted (exec handle_auto_brightness w) = emitted w ++ [eyes_brightness (Some level)].
Proof.
  destruct (auto_time_shape w) as (t1 & t2 & t3 & Hshape & _).
  destruct (handle_auto_brightness_effect w t1 t2 t3 Hshape)
    as (_ & Hauto & Hemit & _).
  split; [exact Hauto|]. eexists. exact Hemit.
Qed.

Lemma _set_brightness_auto (text : string) (w : World) :
  parse_brightness text = Some (-1) ->
  _set_brightness text w = handle_auto_brightness w.
Proof. unfold _set_brightness. intros ->. reflexivity. Qed.

Lemma _set_brightness_manual (text : string) (percent : Z) (w : World) :
  parse_brightness text = Some percent -> percent <> -1 ->
  auto_brightness (exec (_set_brightness text) w) = Some false.
Proof.
  unfold _set_brightness. intros -> Hp.
  destruct (percent =? -1) eqn:Heq; [apply Z.eqb_eq in Heq; contradiction|].
  unfold set_eye_brightness. step_monad. cbn.
  destruct (percent_to_level percent) as [level|e]; cbn; [|reflexivity].
  destruct (level_to_percent level); reflexivity.
Qed.

Lemma _set_brightness_invalid (text : string) (w : World) :
  parse_brightness text = None ->
  exec (_set_brightness text) w
    = set_emitted (emitted w ++ [speak_dialog "brightness.not.found.final" None]) w.
Proof. unfold _set_brightness. intros ->. reflexivity. Qed.

(** A timer firing for a solar event is dropped when the mode is manual. *)
Lemma _handle_eye_brightness_event_manual (data : string * Z) (w : World) :
  auto_brightness w = Some false ->
  _handle_eye_brightness_event data w = (Ok tt, w).
Proof.
  unfold _handle_eye_brightness_event. step_monad. intros ->. reflexivity.
Qed.

Lemma handle_brightness_run (b r : option string) (w : World) :
  exec (handle_brightness b r) w =
    let w' := match b with
              | Some (String _ _) => w
              | _ => set_emitted (emitted w ++ [get_response "brightness.not.found"]) w
              end in
    match heard b r with
    | Some text => exec (_set_brightness text) w'
    | None => w'
    end.
Proof.
  unfold handle_brightness, heard.
  destruct b as [[|c s]|]; [| | ];
    try (destruct r as [[|c' s']|]); step_monad; cbn;
    try reflexivity;
    match goal with
    | |- context [_set_brightness ?t ?w'] => destruct (_set_brightness t w') as [[] ?]
    end; reflexivity.
Qed.

Lemma _set_brightness_stays_manual (text : string) (w : World) :
  parse_brightness text <> Some (-1) ->
  auto_brightness w = Some false ->
  auto_brightness (exec (_set_brightness text) w) = Some false.
Proof.
  intros Hparse Hw.
  destruct (parse_brightness text) as [percent|] eqn:Hp.
  - apply (_set_brightness_manual text percent); [exact Hp | congruence].
  - rewrite _set_brightness_invalid by exact Hp. exact Hw.
Qed.

Lemma fire_stays_manual (name : string) (w : World) :
  auto_brightness w = Some false ->
  auto_brightness (exec (fire name) w) = Some false.
Proof.
  destruct w as [ic hg iid hsp ab ade da sch sl em rd]. cbn. intros ->.
  unfold fire, check_for_idle, cancel_scheduled_event, _handle_eye_brightness_event.
  step_monad. cbn.
  destruct (take_timer name sch) as [[t rest]|]; [|reflexivity]. cbn.
  destruct (t_callback t); cbn.
  - destruct ade; cbn; [|reflexivity].
    destruct (String.eqb da ""); cbn; [|reflexivity].
    destruct (ic + 1 =? 2); cbn; [reflexivity|].
    destruct (ic + 1 >? 2); reflexivity.
  - destruct (t_data t); reflexivity.
Qed.

(** Every event that does not switch automatic brightness on leaves a
    manual mode manual. *)
Lemma dispatch_stays_manual (e : Event) (w : World) :
  enables_auto e = false ->
  auto_brightness w = Some false ->
  auto_brightness (exec (dispatch e) w) = Some false.
Proof.
  intros He Hw. destruct e; cbn [dispatch].
  - (* handler_start *)
    destruct (ignored handler) eqn:Hh; unfold exec.
    + now rewrite on_handler_started_ignored.
    + now rewrite on_handler_started_accepted.
  - (* handler_complete *)
    unfold on_handler_complete, hourglass_get. step_monad.
    destruct (Py.contains "Mark2" handler); [exact Hw|].
    destruct (Py.contains "TimeSkill.update_display" handler); [exact Hw|].
    destruct (hourglass_info w !! handler) as [v|] eqn:Hv; cbn; [|exact Hw].
    destruct (v =? -1); cbn; rewrite Hv; exact Hw.
  - exact Hw.
  - (* mouth_viseme *)
    unfold on_handler_speaking. step_monad.
    destruct (has_show_page w); [exact Hw|].
    destruct code; exact Hw.
  - unfold on_gui_page_show. destruct (Py.contains "Mark2" handler); exact Hw.
  - (* record_begin *)
    unfold handle_listener_started, start_idle_check, cancel_scheduled_event,
      schedule_repeating_event.
    step_monad. cbn.
    destruct (auto_dim_eyes w) eqn:Hdim; cbn; [|exact Hw].
    destruct (idle_count w >? 2); cbn; [|exact Hw].
    rewrite Hdim. cbn. destruct (existsb _ _); exact Hw.
  - exact Hw.
  - exact Hw.
  - exact Hw.
  - destruct connected; exact Hw.
  - (* brightness_intent *)
    rewrite handle_brightness_run. cbn zeta. cbn [enables_auto] in He.
    destruct (heard brightness response) as [text|].
    + apply _set_brightness_stays_manual.
      * destruct (parse_brightness text) as [p|]; [|discriminate].
        intros [= ->]. discriminate.
      * destruct brightness as [[|? ?]|]; exact Hw.
    + destruct brightness as [[|? ?]|]; exact Hw.
  - discriminate.
  - now apply fire_stays_manual.
  - exact Hw.
  - exact Hw.
Qed.

Lemma run_stays_manual (events : list Event) (w : World) :
  Forall (fun e => enables_auto e = false) events ->
  auto_brightness w = Some false ->
  auto_brightness (run events w) = Some false.
Proof.
  intros Hevents. revert w.
  induction Hevents as [|e events He _ IH]; intros w Hw; [exact Hw|].
  rewrite run_cons. apply IH.
  now apply dispatch_stays_manual.
Qed.

End ManualBrightness.

(** C7.  A brightness text that parses to a percentage other than -1 makes
    [_set_brightness] put the mode to manual.  As long as no event switches
    automatic brightness on again the mode stays manual, and a firing solar
    timer is dropped: its handler sends nothing to the hardware and
    schedules nothing, the world only loses the timer that fired. *)
Theorem C7_manual_discards_solar_timers `{Host}
    (w : World) (text : string) (percent : Z) (events : list Event)
    (Hparse : parse_brightness text = Some percent) (Hmanual : percent <> -1)
    (Hevents : Forall (fun e => enables_auto e = false) events) :
  let w1 := exec (_set_brightness text) w in
  let w2 := run events w1 in
  auto_brightness w1 = Some false /\
  auto_brightness w2 = Some false /\
  (forall data, _handle_eye_brightness_event data w2 = (Ok tt, w2)) /\
  (forall name t rest,
     take_timer name (scheduled w2) = Some (t, rest) ->
     t_callback t = cb_handle_eye_brightness_event ->
     t_data t <> None ->
     let w3 := run [timer_fired name] w2 in
     emitted w3 = emitted w2 /\ sched_log w3 = sched_log w2 /\
     scheduled w3 = rest /\ auto_brightness w3 = Some false).
Proof.
  intros w1 w2.
  assert (H1 : auto_brightness w1 = Some false)
    by (apply (_set_brightness_manual text percent); assumption).
  assert (H2 : auto_brightness w2 = Some false)
    by (apply run_stays_manual; assumption).
  split; [exact H1|]. split; [exact H2|]. split.
  - intros data. now apply _handle_eye_brightness_event_manual.
  - intros name t rest Htake Hcb Hdata w3. subst w3.
    unfold run, fold_left, exec, dispatch, fire. step_monad.
    rewrite Htake. cbn. rewrite Hcb.
    destruct (t_data t) as [data|]; [|contradiction]. cbn.
    rewrite _handle_eye_brightness_event_manual by exact H2.
    repeat split; exact H2.
Qed.

Lemma C7_manual_discards_solar_timers_witness :
  let host := greenwich (fun _ => 50000) in
  let w := run (H := host) [brightness_auto_intent] __init__ in
  let w2 := run (H := host) [record_begin; user_output]
              (exec (_set_brightness (H := host) "45") w) in
  parse_brightness (H := host) "45" = Some 45 /\
  Forall (fun e => enables_auto (H := host) e = false) [record_begin; user_output] /\
  auto_brightness w = Some true /\
  auto_brightness w2 = Some false /\
  emitted (run (H := host) [timer_fired "Sunset"] w2) = emitted w2.
Proof.
  intros host w w2.
  assert (Hparse : parse_brightness (H := host) "45" = Some 45)
    by (vm_compute; reflexivity).
  assert (Hevents : Forall (fun e => enables_auto (H := host) e = false)
                      [record_begin; user_output])
    by (repeat constructor).
  split; [exact Hparse|]. split; [exact Hevents|].
  split; [vm_compute; reflexivity|].
  destruct (@C7_manual_discards_solar_timers host w "45" 45
              [record_begin; user_output] Hparse ltac:(lia) Hevents)
    as (_ & Hstill & _ & Hfire).
  split; [exact Hstill|].
  refine (proj1 (Hfire "Sunset" (solar_timer "Sunset" 64800 5) _ _ _ _)).
  - vm_compute. reflexivity.
  - reflexivity.
  - discriminate.
Defined.

(** C10.  A text that is not a named term and carries a "%" or a "percent"
    marker reads as the integer left after the marker is removed, whatever
    its size: "150%" reads 150 and "-1%" reads -1.  A text that reads -1
    makes [_set_brightness] run [handle_auto_brightness]: the mode becomes
    automatic and the only command sent is the level of a solar event, no
    manual level and no "not understood" reply. *)
Theorem C10_marked_percent_unchecked `{Host} (text : string) (w : World)
    (Hunnamed : brightness_dict !! normalize text = None) :
  (Py.contains "%" text = true ->
     parse_brightness text = int_or_invalid (Py.strip (Py.replace "%" "" text))) /\
  (Py.contains "%" text = false -> Py.contains "percent" text = true ->
     parse_brightness text = int_or_invalid (Py.strip (Py.replace "percent" "" text))) /\
  (text = "150%" -> parse_brightness text = Some 150) /\
  (text = "-1%" -> parse_brightness text = Some (-1)) /\
  (parse_brightness text = Some (-1) ->
     _set_brightness text w = handle_auto_brightness w /\
     auto_brightness (exec (_set_brightness text) w) = Some true /\
     exists level,
       emitted (exec (_set_brightness text) w)
         = emitted w ++ [eyes_brightness (Some level)]).
Proof.
  assert (Hread : parse_brightness text =
                  if Py.contains "%" text
                  then int_or_invalid (Py.strip (Py.replace "%" "" text))
                  else if Py.contains "percent" text
                  then int_or_invalid (Py.strip (Py.replace "percent" "" text))
                  else parseBrightness_spec text).
  { rewrite parse_brightness_unfold. unfold parseBrightness_spec.
    rewrite Hunnamed.
    destruct (Py.contains "%" text); [reflexivity|].
    destruct (Py.contains "percent" text); reflexivity. }
  split; [intros Hpc; rewrite Hread, Hpc; reflexivity|].
  split; [intros Hpc Hword; rewrite Hread, Hpc, Hword; reflexivity|].
  split; [intros ->; rewrite Hread; reflexivity|].
  split; [intros ->; rewrite Hread; reflexivity|].
  intros Hauto.
  split; [now apply _set_brightness_auto|].
  unfold exec. rewrite _set_brightness_auto by exact Hauto.
  apply handle_auto_brightness_enables.
Qed.

Lemma C10_marked_percent_unchecked_witness :
  let host := greenwich (fun _ => 50000) in
  @brightness_dict host !! @normalize host "-1%" = None /\
  parse_brightness (H := host) "-1%" = Some (-1) /\
  auto_brightness (exec (_set_brightness (H := host) "-1%") __init__) = Some true.
Proof.
  intros host.
  assert (Hunnamed : @brightness_dict host !! @normalize host "-1%" = None)
    by (vm_compute; reflexivity).
  destruct (@C10_marked_percent_unchecked host "-1%" __init__ Hunnamed)
    as (_ & _ & _ & Hread & Hauto).
  split; [exact Hunnamed|]. split; [exact (Hread eq_refl)|].
  exact (proj1 (proj2 (Hauto (Hread eq_refl)))).
Defined.

(** ** Re-arming the solar timers *)

(** C3 (the code departs from it).  [handle_auto_brightness] schedules its
    three timers without cancelling: every run adds one pending timer under
    each solar name and calls no cancellation, so that two requests for
    automatic brightness leave two timers under each name.  And a solar
    timer that fires in the very second of its instant is scheduled again
    at that same instant, not 24 hours later. *)
Theorem C3_solar_timers_double_scheduled :
  (forall (H : Host) (w : World),
     let w' := exec handle_auto_brightness w in
     pending "Sunrise" w' = S (pending "Sunrise" w) /\
     pending "Noon" w' = S (pending "Noon" w) /\
     pending "Sunset" w' = S (pending "Sunset" w) /\
     forall name, ~ In (sc_cancel name) (skipn (length (sched_log w)) (sched_log w'))) /\
  (let w := run (H := greenwich (fun _ => 50000))
              [brightness_auto_intent; brightness_auto_intent] __init__ in
   pending "Sunrise" w = 2%nat /\ pending "Noon" w = 2%nat /\
   pending "Sunset" w = 2%nat) /\
  (let w := run (H := greenwich (fun _ => 21600)) [brightness_auto_intent] __init__ in
   let w' := run (H := greenwich (fun _ => 21600)) [timer_fired "Sunrise"] w in
   List.filter (named "Sunrise") (scheduled w) = [solar_timer "Sunrise" 21600 20] /\
   List.filter (named "Sunrise") (scheduled w') = [solar_timer "Sunrise" 21600 20] /\
   emitted w' = emitted w ++ [eyes_brightness (Some 20)]).
Proof.
  split; [|split].
  - intros H w w'. subst w'.
    destruct (auto_time_shape w) as (t1 & t2 & t3 & Hshape & _).
    destruct (handle_auto_brightness_effect w t1 t2 t3 Hshape)
      as (_ & _ & _ & Hsched & Hlog).
    unfold pending. rewrite Hsched, Hlog, !List.filter_app, !length_app.
    cbn [List.filter named solar_timer t_name String.eqb Ascii.eqb Bool.eqb length].
    repeat (split; [lia|]).
    intros name. rewrite drop_app_length.
    intros [Hin|[Hin|[Hin|[]]]]; discriminate.
  - vm_compute. repeat split; reflexivity.
  - vm_compute. repeat split; reflexivity.
Qed.

(** * Further properties of the handlers *)

(** ** What the brightness handlers leave alone *)

Section BrightnessFrame.
Context `{Host}.

Lemma tracker_frame_refl (w : World) : tracker_frame w w.
Proof. repeat split. Qed.

Lemma tracker_frame_trans (w1 w2 w3 : World) :
  tracker_frame w1 w2 -> tracker_frame w2 w3 -> tracker_frame w1 w3.
Proof.
  unfold tracker_frame.
  intros (?&?&?&?&?&?) (?&?&?&?&?&?). repeat split; congruence.
Qed.

Lemma handle_auto_brightness_frame (w : World) :
  tracker_frame w (exec handle_auto_brightness w).
Proof.
  destruct w as [ic hg iid hsp ab ade da sch sl em rd].
  unfold tracker_frame.
  unfold handle_auto_brightness, _get_auto_time, for_each, schedule_brightness,
    set_eye_brightness, schedule_event, ast_loc_sun, arrow_now, nearer.
  step_monad. cbn.
  destruct (_ || _); cbn;
    repeat match goal with
           | |- context [if ?c then _ else _] => destruct c; cbn
           end;
    repeat split; reflexivity.
Qed.

Lemma _set_brightness_frame (text : string) (w : World) :
  tracker_frame w (exec (_set_brightness text) w).
Proof.
  unfold _set_brightness.
  destruct (parse_brightness text) as [percent|]; [|repeat split].
  destruct (percent =? -1); [apply handle_auto_brightness_frame|].
  unfold set_eye_brightness. step_monad. cbn.
  destruct (percent_to_level percent) as [level|e]; cbn; [|repeat split].
  destruct (level_to_percent level); repeat split.
Qed.

Lemma handle_brightness_frame (b r : option string) (w : World) :
  tracker_frame w (exec (handle_brightness b r) w).
Proof.
  rewrite handle_brightness_run. cbn zeta.
  set (w' := match b with Some (String _ _) => w | _ => _ end).
  assert (Hw' : tracker_frame w w') by (subst w'; destruct b as [[|? ?]|]; repeat split).
  destruct (heard b r) as [text|]; [|exact Hw'].
  eapply tracker_frame_trans; [exact Hw'|apply _set_brightness_frame].
Qed.

(** The world after a solar timer's handler ran in automatic mode: the
    timers of that name are cancelled, the level is sent, and the event is
    scheduled again when its name is one [_get_auto_time] knows. *)
Lemma _handle_eye_brightness_event_auto (data : string * Z) (w : World) :
  auto_brightness w = Some true ->
  let w' := exec (_handle_eye_brightness_event data) w in
  let now := clock (4 + reads w)%nat in
  tracker_frame w w' /\
  auto_brightness w' = Some true /\
  emitted w' = emitted w ++ [eyes_brightness (Some data.2)] /\
  match getitem (auto_time_at w) data.1 with
  | Ok (t, level) =>
      fst (_handle_eye_brightness_event data w) = Ok tt /\
      scheduled w' =
        List.filter (fun t => negb (named data.1 t)) (scheduled w)
          ++ [solar_timer data.1 (shifted now t) level] /\
      sched_log w' =
        sched_log w ++ [sc_cancel data.1; sc_schedule data.1 (shifted now t)]
  | Raise e =>
      fst (_handle_eye_brightness_event data w) = Raise e /\
      scheduled w' = List.filter (fun t => negb (named data.1 t)) (scheduled w) /\
      sched_log w' = sched_log w ++ [sc_cancel data.1]
  end.
Proof.
  destruct w as [ic hg iid hsp ab ade da sch sl em rd]. destruct data as [tod level].
  cbn. intros ->.
  unfold auto_time_at, shifted, solar_timer, tracker_frame.
  unfold _handle_eye_brightness_event, _get_auto_time, schedule_brightness,
    set_eye_brightness, schedule_event, cancel_scheduled_event, ast_loc_sun, arrow_now.
  step_monad. cbn.
  destruct (_ || _); cbn;
    repeat match goal with
           | |- context [if ?c then _ else _] => destruct c; cbn
           end;
    rewrite <- ?app_assoc; repeat split; reflexivity.
Qed.

End BrightnessFrame.

(** ** Solar timers that fire *)

Lemma named_solar_timer (name other : string) (when level : Z) :
  named other (solar_timer name when level) = String.eqb name other.
Proof. reflexivity. Qed.

Lemma filter_named_other (name other : string) (l : list Timer) :
  other <> name ->
  List.filter (named other) (List.filter (fun t => negb (named name t)) l)
    = List.filter (named other) l.
Proof.
  intros Hne. induction l as [|t l IH]; [reflexivity|].
  cbn. destruct (named name t) eqn:Hn; cbn.
  - destruct (named other t) eqn:Ho; [|exact IH].
    unfold named in Hn, Ho.
    apply String.eqb_eq in Hn. apply String.eqb_eq in Ho. congruence.
  - destruct (named other t); [f_equal|]; exact IH.
Qed.

Section SolarTimers.
Context `{Host}.

Lemma getitem_auto_time (w : World) (name : string) :
  match getitem (auto_time_at w) name with
  | Ok (t, level) =>
      (name = "Sunrise" /\ level = 20) \/ (name = "Noon" /\ level = 30) \/
      (name = "Sunset" /\ level = 5)
  | Raise e => e = KeyError /\ ~ In name ["Sunrise"; "Noon"; "Sunset"]
  end.
Proof.
  destruct (auto_time_shape w) as (t1 & t2 & t3 & -> & _). cbn [getitem].
  destruct (String.eqb_spec "Sunrise" name) as [<-|H1]; [tauto|].
  destruct (String.eqb_spec "Noon" name) as [<-|H2]; [tauto|].
  destruct (String.eqb_spec "Sunset" name) as [<-|H3]; [tauto|].
  split; [reflexivity|]. simpl. tauto.
Qed.

(** X1.  In automatic mode the handler of a solar timer, called for one of
    the three solar names, returns normally, sends the level the timer
    carried and nothing else, and leaves exactly one timer pending under
    that name however many were pending before; timers under other names
    are kept as they were. *)
Theorem X1_solar_timer_rearmed_once (w : World) (name : string) (level : Z)
    (Hauto : auto_brightness w = Some true)
    (Hname : In name ["Sunrise"; "Noon"; "Sunset"]) :
  let w' := exec (_handle_eye_brightness_event (name, level)) w in
  fst (_handle_eye_brightness_event (name, level) w) = Ok tt /\
  emitted w' = emitted w ++ [eyes_brightness (Some level)] /\
  pending name w' = 1%nat /\
  (forall other, other <> name ->
     List.filter (named other) (scheduled w') = List.filter (named other) (scheduled w)).
Proof.
  intros w'. subst w'.
  destruct (_handle_eye_brightness_event_auto (name, level) w Hauto)
    as (_ & _ & Hemit & Hrest).
  pose proof (getitem_auto_time w name) as Hget. cbn [fst snd] in Hrest.
  destruct (getitem (auto_time_at w) name) as [[t l]|e].
  - destruct Hrest as (Hok & Hsched & _).
    split; [exact Hok|]. split; [exact Hemit|]. split.
    + unfold pending. rewrite Hsched, List.filter_app, pending_cancelled.
      cbn [List.filter]. rewrite named_solar_timer, String.eqb_refl. reflexivity.
    + intros other Hother.
      rewrite Hsched, List.filter_app, filter_named_other by exact Hother.
      cbn [List.filter]. rewrite named_solar_timer.
      destruct (String.eqb_spec name other) as [->|_]; [contradiction|].
      apply app_nil_r.
  - destruct Hget as [_ Hnot]. contradiction.
Qed.

(** X2.  In automatic mode the handler of a solar timer, called under a
    name that is none of the three, raises [KeyError] only after it has
    cancelled the timers of that name and sent the level: nothing is
    scheduled again. *)
Theorem X2_solar_timer_unknown_name (w : World) (name : string) (level : Z)
    (Hauto : auto_brightness w = Some true)
    (Hname : ~ In name ["Sunrise"; "Noon"; "Sunset"]) :
  let w' := exec (_handle_eye_brightness_event (name, level)) w in
  fst (_handle_eye_brightness_event (name, level) w) = Raise KeyError /\
  emitted w' = emitted w ++ [eyes_brightness (Some level)] /\
  pending name w' = 0%nat /\
  sched_log w' = sched_log w ++ [sc_cancel name].
Proof.
  intros w'. subst w'.
  destruct (_handle_eye_brightness_event_auto (name, level) w Hauto)
    as (_ & _ & Hemit & Hrest).
  pose proof (getitem_auto_time w name) as Hget. cbn [fst snd] in Hrest.
  destruct (getitem (auto_time_at w) name) as [[t l]|e].
  - exfalso. apply Hname. simpl.
    destruct Hget as [[-> _]|[[-> _]|[-> _]]]; tauto.
  - destruct Hget as [-> _]. destruct Hrest as (Hraise & Hsched & Hlog).
    split; [exact Hraise|]. split; [exact Hemit|]. split; [|exact Hlog].
    unfold pending. now rewrite Hsched, pending_cancelled.
Qed.

End SolarTimers.

Lemma X1_solar_timer_rearmed_once_witness :
  let host := greenwich (fun _ => 50000) in
  let w := run (H := host) [brightness_auto_intent; brightness_auto_intent] __init__ in
  auto_brightness w = Some true /\ In "Noon" ["Sunrise"; "Noon"; "Sunset"] /\
  pending "Noon" w = 2%nat /\
  pending "Noon" (exec (_handle_eye_brightness_event (H := host) ("Noon", 30)) w) = 1%nat.
Proof.
  intros host w.
  assert (Hauto : auto_brightness w = Some true) by (vm_compute; reflexivity).
  assert (Hname : In "Noon" ["Sunrise"; "Noon"; "Sunset"]) by (simpl; tauto).
  split; [exact Hauto|]. split; [exact Hname|]. split; [vm_compute; reflexivity|].
  exact (proj1 (proj2 (proj2 (@X1_solar_timer_rearmed_once host w "Noon" 30 Hauto Hname)))).
Defined.

Lemma X2_solar_timer_unknown_name_witness :
  let host := greenwich (fun _ => 50000) in
  let w := run (H := host) [brightness_auto_intent] __init__ in
  auto_brightness w = Some true /\ ~ In "Dusk" ["Sunrise"; "Noon"; "Sunset"] /\
  fst (_handle_eye_brightness_event (H := host) ("Dusk", 7) w) = Raise KeyError.
Proof.
  intros host w.
  assert (Hauto : auto_brightness w = Some true) by (vm_compute; reflexivity).
  assert (Hname : ~ In "Dusk" ["Sunrise"; "Noon"; "Sunset"])
    by (simpl; intros [|[|[|[]]]]; discriminate).
  split; [exact Hauto|]. split; [exact Hname|].
  exact (proj1 (@X2_solar_timer_unknown_name host w "Dusk" 7 Hauto Hname)).
Defined.

(** ** Worlds the skill can reach *)

Lemma take_timer_spec (name : string) (l : list Timer) (t : Timer) (rest : list Timer) :
  take_timer name l = Some (t, rest) ->
  In t l /\ named name t = true /\
  (rest = l \/ exists l1 l2, l = l1 ++ t :: l2 /\ rest = l1 ++ l2).
Proof.
  revert rest. induction l as [|x l IH]; intros rest; [discriminate|].
  cbn. destruct (named name x) eqn:Hx.
  - intros [= <- <-]. split; [now left|]. split; [exact Hx|].
    destruct (t_repeat x); [now left|].
    right. exists [], l. split; reflexivity.
  - destruct (take_timer name l) as [[y r]|]; [|discriminate].
    intros [= <- <-].
    destruct (IH r eq_refl) as (Hin & Hn & Hrest).
    split; [now right|]. split; [exact Hn|].
    destruct Hrest as [->|(l1 & l2 & -> & ->)]; [now left|].
    right. exists (x :: l1), l2. split; reflexivity.
Qed.

Lemma take_timer_Forall (P : Timer -> Prop) (name : string) (l : list Timer)
    (t : Timer) (rest : list Timer) :
  take_timer name l = Some (t, rest) ->
  List.Forall P l -> P t /\ List.Forall P rest.
Proof.
  intros Htake Hall.
  destruct (take_timer_spec _ _ _ _ Htake) as (Hin & _ & Hrest).
  split; [now apply (proj1 (List.Forall_forall P l) Hall)|].
  destruct Hrest as [->|(l1 & l2 & -> & ->)]; [exact Hall|].
  apply List.Forall_app in Hall as [H1 H2].
  apply List.Forall_app. split; [exact H1|]. now inversion H2.
Qed.

Lemma take_timer_count (name other : string) (l : list Timer)
    (t : Timer) (rest : list Timer) :
  take_timer name l = Some (t, rest) ->
  (length (List.filter (named other) rest) <= length (List.filter (named other) l))%nat.
Proof.
  intros Htake.
  destruct (take_timer_spec _ _ _ _ Htake) as (_ & _ & [->|(l1 & l2 & -> & ->)]);
    [lia|].
  rewrite !List.filter_app, !length_app. cbn.
  destruct (named other t); cbn; lia.
Qed.

Lemma filter_cancel_count (name other : string) (l : list Timer) :
  (length (List.filter (named other) (List.filter (fun t => negb (named name t)) l))
   <= length (List.filter (named other) l))%nat.
Proof.
  induction l as [|t l IH]; [reflexivity|].
  cbn. destruct (named name t); cbn; destruct (named other t); cbn; lia.
Qed.

Lemma Forall_cancel (P : Timer -> Prop) (name : string) (l : list Timer) :
  List.Forall P l -> List.Forall P (List.filter (fun t => negb (named name t)) l).
Proof.
  intros Hall. apply List.Forall_forall. intros t Ht.
  apply List.filter_In in Ht as [Ht _].
  now apply (proj1 (List.Forall_forall P l) Hall).
Qed.

Lemma check_for_idle_run (w : World) :
  check_for_idle w =
    (Ok tt,
     if negb (auto_dim_eyes w) then exec (cancel_scheduled_event "IdleCheck") w
     else if String.eqb (display_active w) "" then
       let w1 := set_idle_count (idle_count w + 1) w in
       if idle_count w + 1 =? 2 then
         set_emitted (emitted w ++ [show_page "idle.qml"]) w1
       else if idle_count w + 1 >? 2 then
         set_emitted (emitted w ++ [show_page "resting.qml"])
           (exec (cancel_scheduled_event "IdleCheck") w1)
       else w1
     else set_idle_count 0 w).
Proof.
  destruct w as [ic hg iid hsp ab ade da sch sl em rd].
  unfold check_for_idle, cancel_scheduled_event. step_monad. cbn.
  destruct ade; cbn; [|reflexivity].
  destruct (String.eqb da ""); cbn; [|reflexivity].
  destruct (ic + 1 =? 2); cbn; [reflexivity|].
  destruct (ic + 1 >? 2); reflexivity.
Qed.

Lemma steady_same (w w' : World) :
  scheduled w' = scheduled w -> idle_count w' = idle_count w ->
  auto_brightness w' = auto_brightness w -> steady w -> steady w'.
Proof.
  unfold steady, pending. intros -> -> ->. tauto.
Qed.

(** Cancelling timers and moving the counter to a value that is not
    negative keep a world steady. *)
Lemma steady_cancel (name : string) (count : Z) (w w' : World) :
  scheduled w' = List.filter (fun t => negb (named name t)) (scheduled w) ->
  idle_count w' = count -> 0 <= count ->
  auto_brightness w' = auto_brightness w -> steady w -> steady w'.
Proof.
  unfold steady, pending. intros -> -> Hcount -> (Hwf & Hone & Hnone & _).
  split; [now apply Forall_cancel|]. split.
  - pose proof (filter_cancel_count name "IdleCheck" (scheduled w)). lia.
  - split; [|exact Hcount]. intros Hab. now apply Forall_cancel, Hnone.
Qed.

Lemma steady_count (count : Z) (w w' : World) :
  scheduled w' = scheduled w -> idle_count w' = count -> 0 <= count ->
  auto_brightness w' = auto_brightness w -> steady w -> steady w'.
Proof.
  unfold steady, pending. intros -> -> Hcount -> (Hwf & Hone & Hnone & _). tauto.
Qed.

Lemma steady_check_for_idle (w : World) : steady w -> steady (exec check_for_idle w).
Proof.
  intros Hw. unfold exec at 1. rewrite check_for_idle_run. cbn [snd].
  pose proof Hw as (_ & _ & _ & Hcount).
  destruct (negb (auto_dim_eyes w)).
  { apply (steady_cancel "IdleCheck" (idle_count w) w);
      first [reflexivity | assumption]. }
  destruct (String.eqb (display_active w) "").
  - cbn zeta. destruct (idle_count w + 1 =? 2).
    { apply (steady_count (idle_count w + 1) w);
        first [reflexivity | lia | exact Hw]. }
    destruct (idle_count w + 1 >? 2).
    + apply (steady_cancel "IdleCheck" (idle_count w + 1) w);
        first [reflexivity | lia | exact Hw].
    + apply (steady_count (idle_count w + 1) w);
        first [reflexivity | lia | exact Hw].
  - apply (steady_count 0 w); first [reflexivity | lia | exact Hw].
Qed.

Lemma steady_start_idle_check (w : World) (count : Z) :
  0 <= count -> steady w -> steady (exec start_idle_check (set_idle_count count w)).
Proof.
  intros Hcount (Hwf & Hone & Hnone & _).
  destruct w as [ic hg iid hsp ab ade da sch sl em rd].
  unfold steady, pending, start_idle_check, cancel_scheduled_event,
    schedule_repeating_event in *.
  step_monad. cbn in *.
  destruct ade; cbn.
  - rewrite existsb_cancelled. cbn.
    split; [apply List.Forall_app; split; [now apply Forall_cancel|]|].
    { constructor; [now left|constructor]. }
    split; [rewrite List.filter_app, pending_cancelled; cbn; lia|].
    split; [|exact Hcount].
    intros Hab. apply List.Forall_app. split; [now apply Forall_cancel, Hnone|].
    constructor; [reflexivity|constructor].
  - split; [now apply Forall_cancel|].
    split; [rewrite pending_cancelled; cbn; lia|].
    split; [|exact Hcount]. intros Hab. now apply Forall_cancel, Hnone.
Qed.

Section Steady.
Context `{Host}.

Lemma fire_run (name : string) (w : World) :
  fire name w =
    match take_timer name (scheduled w) with
    | None => (Ok tt, w)
    | Some (t, rest) =>
        match t_callback t with
        | cb_check_for_idle => check_for_idle (set_scheduled rest w)
        | cb_handle_eye_brightness_event =>
            match t_data t with
            | Some data => _handle_eye_brightness_event data (set_scheduled rest w)
            | None => (Raise TypeError, set_scheduled rest w)
            end
        end
    end.
Proof.
  unfold fire. step_monad. cbn.
  destruct (take_timer name (scheduled w)) as [[t rest]|]; [|reflexivity]. cbn.
  destruct (t_callback t); [reflexivity|].
  destruct (t_data t); reflexivity.
Qed.

Lemma steady_handle_auto_brightness (w : World) :
  steady w -> steady (exec handle_auto_brightness w).
Proof.
  intros (Hwf & Hone & _ & Hcount).
  destruct (auto_time_shape w) as (t1 & t2 & t3 & Hshape & _).
  destruct (handle_auto_brightness_effect w t1 t2 t3 Hshape)
    as (_ & Hauto & _ & Hsched & _).
  destruct (handle_auto_brightness_frame w) as (Hic & _).
  unfold steady, pending. rewrite Hsched, Hauto, Hic.
  split.
  { apply List.Forall_app. split; [exact Hwf|].
    constructor; [right; eexists; left; reflexivity|].
    constructor; [right; eexists; right; left; reflexivity|].
    constructor; [right; eexists; right; right; reflexivity|constructor]. }
  split; [rewrite List.filter_app, length_app; cbn; unfold pending in Hone; lia|].
  split; [discriminate|exact Hcount].
Qed.

Lemma _set_brightness_manual_run (text : string) (percent : Z) (w : World) :
  parse_brightness text = Some percent -> percent <> -1 ->
  let w' := exec (_set_brightness text) w in
  scheduled w' = scheduled w /\ sched_log w' = sched_log w /\
  auto_brightness w' = Some false.
Proof.
  unfold _set_brightness. intros -> Hp.
  destruct (percent =? -1) eqn:Heq; [apply Z.eqb_eq in Heq; contradiction|].
  unfold set_eye_brightness. step_monad. cbn.
  destruct (percent_to_level percent) as [level|e]; cbn; [|repeat split].
  destruct (level_to_percent level); repeat split.
Qed.

Lemma steady__set_brightness (text : string) (w : World) :
  steady w -> steady (exec (_set_brightness text) w).
Proof.
  intros Hw.
  destruct (parse_brightness text) as [percent|] eqn:Hparse.
  - destruct (Z.eq_dec percent (-1)) as [->|Hp].
    + unfold exec. rewrite _set_brightness_auto by exact Hparse.
      now apply steady_handle_auto_brightness.
    + destruct (_set_brightness_manual_run text percent w Hparse Hp)
        as (Hsched & _ & Hauto).
      destruct (_set_brightness_frame text w) as (Hic & _).
      destruct Hw as (Hwf & Hone & _ & Hcount).
      unfold steady, pending. rewrite Hsched, Hauto, Hic.
      split; [exact Hwf|]. split; [exact Hone|]. split; [discriminate|exact Hcount].
  - rewrite _set_brightness_invalid by exact Hparse.
    now apply (steady_same w).
Qed.

Lemma steady_handle_brightness (b r : option string) (w : World) :
  steady w -> steady (exec (handle_brightness b r) w).
Proof.
  intros Hw. rewrite handle_brightness_run. cbn zeta.
  set (w' := match b with Some (String _ _) => w | _ => _ end).
  assert (Hw' : steady w').
  { subst w'. destruct b as [[|? ?]|]; try exact Hw; now apply (steady_same w). }
  destruct (heard b r); [now apply steady__set_brightness|exact Hw'].
Qed.

(** In a steady world a firing timer finds what its handler needs: the
    handler returns normally and the world stays steady. *)
Lemma steady_fire (name : string) (w : World) :
  steady w -> fst (fire name w) = Ok tt /\ steady (exec (fire name) w).
Proof.
  intros Hw. unfold exec. rewrite fire_run.
  destruct (take_timer name (scheduled w)) as [[t rest]|] eqn:Htake;
    [|split; [reflexivity|exact Hw]].
  pose proof Hw as (Hwf & Hone & Hnone & Hcount).
  destruct (take_timer_Forall _ _ _ _ _ Htake Hwf) as [Ht Hrest].
  assert (Hw1 : steady (set_scheduled rest w)).
  { unfold steady, pending. cbn.
    split; [exact Hrest|]. split.
    - pose proof (take_timer_count name "IdleCheck" _ _ _ Htake).
      unfold pending in Hone. lia.
    - split; [|exact Hcount]. intros Hab.
      exact (proj2 (take_timer_Forall _ _ _ _ _ Htake (Hnone Hab))). }
  destruct Ht as [->|(when & Ht)].
  { cbn. rewrite check_for_idle_run. split; [reflexivity|].
    rewrite <- check_for_idle_run. now apply steady_check_for_idle. }
  assert (Hsolar : exists tod level,
            t_callback t = cb_handle_eye_brightness_event /\
            t_data t = Some (tod, level) /\ t <> idle_timer /\
            In tod ["Sunrise"; "Noon"; "Sunset"]).
  { destruct Ht as [-> | [-> | ->]]; eexists _, _;
      (split; [reflexivity|]; split; [reflexivity|]; split; [discriminate|]);
      simpl; tauto. }
  destruct Hsolar as (tod & level & -> & -> & Hidle & Htod).
  destruct (auto_brightness w) as [[|]|] eqn:Hab.
  - (* automatic mode *)
    destruct (_handle_eye_brightness_event_auto (tod, level) (set_scheduled rest w) Hab)
      as ((Hic & _) & Hauto & _ & Hget).
    pose proof (getitem_auto_time (set_scheduled rest w) tod) as Hlevel.
    cbn [fst snd] in Hget.
    destruct (getitem (auto_time_at (set_scheduled rest w)) tod) as [[t' l']|e].
    + destruct Hget as (Hok & Hsched & _). split; [exact Hok|].
      unfold steady, pending. unfold exec in *. rewrite Hsched, Hauto, Hic.
      cbn [scheduled set_scheduled idle_count].
      split.
      { apply List.Forall_app. split; [now apply Forall_cancel|].
        constructor; [|constructor]. right. eexists.
        destruct Hlevel as [[-> ->]|[[-> ->]|[-> ->]]];
          [left|right; left|right; right]; reflexivity. }
      split.
      { rewrite List.filter_app, length_app.
        pose proof (filter_cancel_count tod "IdleCheck" rest) as Hle.
        pose proof (take_timer_count name "IdleCheck" _ _ _ Htake) as Hle'.
        unfold pending in Hone.
        cbn [List.filter]. rewrite named_solar_timer.
        destruct Hlevel as [[-> _]|[[-> _]|[-> _]]]; cbn; lia. }
      split; [discriminate|exact Hcount].
    + destruct Hlevel as [_ Hnot]. contradiction.
  - (* manual mode *)
    rewrite _handle_eye_brightness_event_manual by exact Hab.
    split; [reflexivity|exact Hw1].
  - (* the attribute was never assigned: no solar timer can be pending *)
    destruct (take_timer_spec _ _ _ _ Htake) as (Hin & _ & _).
    pose proof (proj1 (List.Forall_forall _ _) (Hnone eq_refl) t Hin).
    contradiction.
Qed.

Lemma steady_handle_listener_started (w : World) :
  steady w -> steady (exec handle_listener_started w).
Proof.
  intros Hw. pose proof Hw as (_ & _ & _ & Hcount).
  destruct (auto_dim_eyes w) eqn:Hdim.
  - destruct (Z_gt_le_dec (idle_count w) 2) as [Hrest|Hawake].
    + rewrite handle_listener_started_waking by assumption.
      apply (steady_same (exec start_idle_check (set_idle_count 0 w)));
        [| | |apply steady_start_idle_check; [lia|exact Hw]];
        rewrite start_idle_check_dim by exact Hdim; reflexivity.
    + rewrite handle_listener_started_attentive by assumption.
      now apply (steady_same w).
  - rewrite handle_listener_started_undimmed by exact Hdim.
    apply (steady_cancel "IdleCheck" (idle_count w) w);
      first [reflexivity | assumption].
Qed.

Lemma steady_dispatch (e : Event) (w : World) :
  steady w -> steady (exec (dispatch e) w).
Proof.
  intros Hw. destruct e; cbn [dispatch].
  - destruct (ignored handler) eqn:Hh; unfold exec.
    + now rewrite on_handler_started_ignored.
    + rewrite on_handler_started_accepted by exact Hh. now apply (steady_same w).
  - unfold on_handler_complete, hourglass_get. step_monad.
    destruct (Py.contains "Mark2" handler); [exact Hw|].
    destruct (Py.contains "TimeSkill.update_display" handler); [exact Hw|].
    destruct (hourglass_info w !! handler) as [v|] eqn:Hv; cbn; [|exact Hw].
    destruct (v =? -1); cbn; rewrite Hv; now apply (steady_same w).
  - now apply (steady_same w).
  - unfold on_handler_speaking. step_monad.
    destruct (has_show_page w); [exact Hw|].
    destruct code; [now apply (steady_same w)|exact Hw].
  - unfold on_gui_page_show.
    destruct (Py.contains "Mark2" handler); [exact Hw|now apply (steady_same w)].
  - now apply steady_handle_listener_started.
  - now apply (steady_same w).
  - now apply (steady_same w).
  - now apply (steady_same w).
  - destruct connected; [now apply (steady_same w)|exact Hw].
  - now apply steady_handle_brightness.
  - now apply steady_handle_auto_brightness.
  - now apply steady_fire.
  - now apply (steady_same w).
  - now apply (steady_same w).
Qed.

Lemma steady_run (events : list Event) (w : World) :
  steady w -> steady (run events w).
Proof.
  revert w. induction events as [|e events IH]; intros w Hw; [exact Hw|].
  rewrite run_cons. apply IH. now apply steady_dispatch.
Qed.

Lemma steady_started : steady (exec initialize __init__).
Proof.
  assert (Hsched : scheduled (exec initialize __init__) = [idle_timer])
    by reflexivity.
  unfold steady, pending. rewrite Hsched.
  split; [constructor; [now left|constructor]|].
  split; [vm_compute; lia|].
  split; [intros _; constructor; [reflexivity|constructor]|].
  vm_compute. discriminate.
Qed.

End Steady.

(** X3.  Whatever events follow the start of the skill, at most one idle
    timer is pending: [start_idle_check] is the only place that schedules
    it, and it cancels first. *)
Theorem X3_idle_timer_never_doubled `{Host} (events : list Event) :
  (pending "IdleCheck" (run events (exec initialize __init__)) <= 1)%nat.
Proof.
  exact (proj1 (proj2 (steady_run events _ steady_started))).
Qed.

(** X4.  Whatever events follow the start of the skill, a timer that fires
    finds its handler able to run: firing any name returns normally, in
    particular a solar timer is only ever pending once [auto_brightness]
    has been assigned, it carries its data, and its name is one that
    [_get_auto_time] knows. *)
Theorem X4_timer_firing_never_raises `{Host} (events : list Event) (name : string) :
  let w := run events (exec initialize __init__) in
  fst (fire name w) = Ok tt /\
  (auto_brightness w = None ->
     forall t, In t (scheduled w) -> t_callback t = cb_check_for_idle) /\
  (forall t, In t (scheduled w) ->
     t_callback t = cb_handle_eye_brightness_event ->
     exists level, t_data t = Some (t_name t, level) /\
       In (t_name t, level) [("Sunrise", 20); ("Noon", 30); ("Sunset", 5)]).
Proof.
  intros w.
  assert (Hw : steady w) by (apply steady_run, steady_started).
  split; [exact (proj1 (steady_fire name w Hw))|].
  destruct Hw as (Hwf & _ & Hnone & _). split.
  - intros Hab t Ht.
    now rewrite (proj1 (List.Forall_forall _ _) (Hnone Hab) t Ht).
  - intros t Ht Hcb.
    destruct (proj1 (List.Forall_forall _ _) Hwf t Ht) as [->|(when & Hsolar)];
      [discriminate|].
    destruct Hsolar as [-> | [-> | ->]]; eexists; (split; [reflexivity|]);
      simpl; tauto.
Qed.

(** X5.  Whatever events follow the start of the skill, the idle counter is
    never negative. *)
Theorem X5_idle_count_never_negative `{Host} (events : list Event) :
  0 <= idle_count (run events (exec initialize __init__)).
Proof.
  exact (proj2 (proj2 (proj2 (steady_run events _ steady_started)))).
Qed.

Lemma X4_timer_firing_never_raises_witness :
  let host := greenwich (fun _ => 50000) in
  let w0 := run (H := host) [] (exec initialize __init__) in
  let w1 := run (H := host) [brightness_auto_intent] (exec initialize __init__) in
  (auto_brightness w0 = None /\ In idle_timer (scheduled w0)) /\
  (In (solar_timer "Noon" 129600 30) (scheduled w1)) /\
  t_callback idle_timer = cb_check_for_idle /\
  fst (fire (H := host) "Noon" w1) = Ok tt /\
  exists level, t_data (solar_timer "Noon" 129600 30) = Some ("Noon", level).
Proof.
  intros host w0 w1.
  assert (Hnone : auto_brightness w0 = None) by reflexivity.
  assert (Hidle : In idle_timer (scheduled w0)) by (vm_compute; tauto).
  assert (Hnoon : In (solar_timer "Noon" 129600 30) (scheduled w1))
    by (vm_compute; tauto).
  split; [split; assumption|]. split; [exact Hnoon|].
  destruct (@X4_timer_firing_never_raises host [] "Noon") as (_ & Hcb & _).
  destruct (@X4_timer_firing_never_raises host [brightness_auto_intent] "Noon")
    as (Hok & _ & Hdata).
  split; [exact (Hcb Hnone idle_timer Hidle)|]. split; [exact Hok|].
  destruct (Hdata _ Hnoon eq_refl) as (level & Hlevel & _).
  exists level. exact Hlevel.
Defined.

(** ** An idle timer that is gone stays gone *)

Lemma pending_none (name : string) (l : list Timer) (t : Timer) :
  length (List.filter (named name) l) = 0%nat -> In t l -> named name t = false.
Proof.
  intros Hlen Hin. destruct (named name t) eqn:Hn; [|reflexivity].
  assert (Hf : In t (List.filter (named name) l)) by (apply List.filter_In; tauto).
  destruct (List.filter (named name) l); [destruct Hf|discriminate].
Qed.

Section IdleOff.
Context `{Host}.

Lemma handle_auto_brightness_idle_timer (w : World) :
  pending "IdleCheck" (exec handle_auto_brightness w) = pending "IdleCheck" w.
Proof.
  destruct (auto_time_shape w) as (t1 & t2 & t3 & Hshape & _).
  destruct (handle_auto_brightness_effect w t1 t2 t3 Hshape)
    as (_ & _ & _ & Hsched & _).
  unfold pending. rewrite Hsched, List.filter_app, length_app. cbn. lia.
Qed.

Lemma _set_brightness_idle_timer (text : string) (w : World) :
  pending "IdleCheck" (exec (_set_brightness text) w) = pending "IdleCheck" w.
Proof.
  destruct (parse_brightness text) as [percent|] eqn:Hparse.
  - destruct (Z.eq_dec percent (-1)) as [->|Hp].
    + unfold exec. rewrite _set_brightness_auto by exact Hparse.
      apply handle_auto_brightness_idle_timer.
    + destruct (_set_brightness_manual_run text percent w Hparse Hp) as (Hsched & _).
      unfold pending. now rewrite Hsched.
  - now rewrite _set_brightness_invalid.
Qed.

Lemma handle_brightness_idle_timer (b r : option string) (w : World) :
  pending "IdleCheck" (exec (handle_brightness b r) w) = pending "IdleCheck" w.
Proof.
  rewrite handle_brightness_run. cbn zeta.
  set (w' := match b with Some (String _ _) => w | _ => _ end).
  assert (Hw' : pending "IdleCheck" w' = pending "IdleCheck" w)
    by (subst w'; destruct b as [[|? ?]|]; reflexivity).
  destruct (heard b r); [|exact Hw'].
  now rewrite _set_brightness_idle_timer.
Qed.

(** One event on a steady world whose idle timer is not pending and whose
    counter is at most 2. *)
Lemma idle_off_dispatch (e : Event) (w : World) :
  steady w -> pending "IdleCheck" w = 0%nat -> idle_count w <= 2 ->
  pending "IdleCheck" (exec (dispatch e) w) = 0%nat /\
  idle_count (exec (dispatch e) w) <= 2.
Proof.
  intros Hw Hoff Hcount. destruct e; cbn [dispatch].
  - destruct (ignored handler) eqn:Hh; unfold exec.
    + rewrite on_handler_started_ignored by exact Hh. now split.
    + rewrite on_handler_started_accepted by exact Hh. now split.
  - unfold on_handler_complete, hourglass_get. step_monad.
    destruct (Py.contains "Mark2" handler); [now split|].
    destruct (Py.contains "TimeSkill.update_display" handler); [now split|].
    destruct (hourglass_info w !! handler) as [v|] eqn:Hv; cbn; [|now split].
    destruct (v =? -1); cbn; rewrite Hv; now split.
  - now split.
  - unfold on_handler_speaking. step_monad.
    destruct (has_show_page w); [now split|].
    destruct code; now split.
  - unfold on_gui_page_show. destruct (Py.contains "Mark2" handler); now split.
  - destruct (auto_dim_eyes w) eqn:Hdim.
    + rewrite handle_listener_started_attentive by assumption. now split.
    + rewrite handle_listener_started_undimmed by exact Hdim.
      split; [|exact Hcount]. unfold pending. cbn. now rewrite pending_cancelled.
  - now split.
  - now split.
  - now split.
  - destruct connected; now split.
  - rewrite handle_brightness_idle_timer.
    destruct (handle_brightness_frame brightness response w) as (-> & _). now split.
  - rewrite handle_auto_brightness_idle_timer.
    destruct (handle_auto_brightness_frame w) as (-> & _). now split.
  - unfold exec. rewrite fire_run.
    destruct (take_timer name (scheduled w)) as [[t rest]|] eqn:Htake; [|now split].
    destruct (take_timer_spec _ _ _ _ Htake) as (Hin & _ & _).
    pose proof (pending_none _ _ _ Hoff Hin) as Hnot.
    pose proof Hw as (Hwf & _ & Hnone & _).
    assert (Hrest : pending "IdleCheck" (set_scheduled rest w) = 0%nat).
    { pose proof (take_timer_count name "IdleCheck" _ _ _ Htake).
      unfold pending in *. cbn. lia. }
    destruct (proj1 (List.Forall_forall _ _) Hwf t Hin) as [->|(when & Hsolar)];
      [discriminate|].
    assert (Hcb : t_callback t = cb_handle_eye_brightness_event /\
                  exists data, t_data t = Some data)
      by (destruct Hsolar as [-> | [-> | ->]]; split; eauto).
    destruct Hcb as (-> & data & ->).
    destruct (auto_brightness w) as [[|]|] eqn:Hab.
    + destruct (_handle_eye_brightness_event_auto data (set_scheduled rest w) Hab)
        as ((Hic & _) & _ & _ & Hget).
      unfold exec in *. rewrite Hic. split; [|exact Hcount].
      assert (Hfilter : length (List.filter (named "IdleCheck")
                (List.filter (fun t => negb (named data.1 t)) rest)) = 0%nat).
      { pose proof (filter_cancel_count data.1 "IdleCheck" rest).
        unfold pending in Hrest. cbn in Hrest. lia. }
      pose proof (getitem_auto_time (set_scheduled rest w) data.1) as Hlevel.
      destruct (getitem (auto_time_at (set_scheduled rest w)) data.1) as [[t' l']|e].
      * destruct Hget as (_ & Hsched & _). cbn [scheduled set_scheduled] in Hsched.
        unfold pending. rewrite Hsched, List.filter_app, length_app, Hfilter.
        cbn [List.filter]. rewrite named_solar_timer.
        destruct Hlevel as [[-> _]|[[-> _]|[-> _]]]; reflexivity.
      * destruct Hget as (_ & Hsched & _). cbn [scheduled set_scheduled] in Hsched.
        unfold pending. now rewrite Hsched.
    + rewrite _handle_eye_brightness_event_manual by exact Hab. now split.
    + pose proof (proj1 (List.Forall_forall _ _) (Hnone eq_refl) t Hin) as ->.
      discriminate.
  - now split.
  - now split.
Qed.

Lemma idle_off_run (events : list Event) (w : World) :
  steady w -> pending "IdleCheck" w = 0%nat -> idle_count w <= 2 ->
  pending "IdleCheck" (run events w) = 0%nat /\ idle_count (run events w) <= 2.
Proof.
  revert w. induction events as [|e events IH]; intros w Hw Hoff Hcount;
    [now split|].
  rewrite run_cons.
  destruct (idle_off_dispatch e w Hw Hoff Hcount) as [Hoff' Hcount'].
  apply IH; [now apply steady_dispatch|exact Hoff'|exact Hcount'].
Qed.

End IdleOff.

(** X6.  Once the skill has reached a world where no idle timer is pending
    while the idle counter is at most 2, no later event arms the idle timer
    again, switching auto-dim back on included: [start_idle_check] is only
    reached from [handle_listener_started] with a counter above 2, and the
    counter only moves when the timer fires. *)
Theorem X6_idle_timer_stays_off `{Host} (before after : list Event) :
  let w := run before (exec initialize __init__) in
  pending "IdleCheck" w = 0%nat -> idle_count w <= 2 ->
  pending "IdleCheck" (run after w) = 0%nat /\ idle_count (run after w) <= 2.
Proof.
  intros w Hoff Hcount.
  apply idle_off_run; [apply steady_run, steady_started|exact Hoff|exact Hcount].
Qed.

Lemma X6_idle_timer_stays_off_witness :
  let host := greenwich (fun _ => 0) in
  let before := [display_changed "weather.qml"; timer_fired "IdleCheck";
                 setting_auto_dim false; timer_fired "IdleCheck"] in
  let after := [setting_auto_dim true; display_changed ""; record_begin;
                record_end; timer_fired "IdleCheck"] in
  let w := run (H := host) before (exec initialize __init__) in
  pending "IdleCheck" w = 0%nat /\ idle_count w <= 2 /\
  auto_dim_eyes (run (H := host) after w) = true /\
  pending "IdleCheck" (run (H := host) after w) = 0%nat.
Proof.
  intros host before after w.
  assert (Hoff : pending "IdleCheck" w = 0%nat) by (vm_compute; reflexivity).
  assert (Hcount : idle_count w <= 2) by (vm_compute; discriminate).
  split; [exact Hoff|]. split; [exact Hcount|]. split; [vm_compute; reflexivity|].
  exact (proj1 (@X6_idle_timer_stays_off host before after Hoff Hcount)).
Defined.

(** ** The busy tracker across events *)

Section Tracker.
Context `{Host}.

Lemma _handle_eye_brightness_event_frame (data : string * Z) (w : World) :
  tracker_frame w (exec (_handle_eye_brightness_event data) w).
Proof.
  destruct (auto_brightness w) as [[|]|] eqn:Hab.
  - exact (proj1 (_handle_eye_brightness_event_auto data w Hab)).
  - unfold exec. rewrite _handle_eye_brightness_event_manual by exact Hab.
    apply tracker_frame_refl.
  - unfold _handle_eye_brightness_event. step_monad. rewrite Hab.
    apply tracker_frame_refl.
Qed.

(** A firing timer leaves the busy tracker's fields alone. *)
Lemma fire_frame (name : string) (w : World) :
  let w' := exec (fire name) w in
  hourglass_info w' = hourglass_info w /\
  interaction_id w' = interaction_id w /\
  has_show_page w' = has_show_page w.
Proof.
  intros w'. subst w'. unfold exec. rewrite fire_run.
  destruct (take_timer name (scheduled w)) as [[t rest]|]; [|repeat split].
  destruct (t_callback t).
  - rewrite check_for_idle_run. cbn [snd].
    destruct (negb _); [repeat split|].
    destruct (String.eqb _ _); [|repeat split]. cbn zeta.
    destruct (_ =? 2); [repeat split|].
    destruct (_ >? 2); repeat split.
  - destruct (t_data t) as [data|]; [|repeat split].
    destruct (_handle_eye_brightness_event_frame data (set_scheduled rest w))
      as (_ & Hhg & Hid & Hsp & _).
    unfold exec in *. rewrite Hhg, Hid, Hsp. repeat split.
Qed.

(** What one event does to the interaction counter, to the page-shown flag
    and to the entry of a handler it does not concern. *)
Lemma dispatch_tracker (e : Event) (h : string) (w : World) :
  let w' := exec (dispatch e) w in
  interaction_id w' = interaction_id w + (if is_user_output e then 1 else 0) /\
  has_show_page w' =
    (if accepted_start e then false
     else if shows_page e then true else has_show_page w) /\
  (concerns h e = false -> hourglass_info w' !! h = hourglass_info w !! h).
Proof.
  intros w'. subst w'.
  assert (Hsame : forall w0 : World,
            hourglass_info w0 = hourglass_info w ->
            interaction_id w0 = interaction_id w ->
            has_show_page w0 = has_show_page w ->
            interaction_id w0 = interaction_id w + 0 /\
            has_show_page w0 = has_show_page w /\
            (false = false -> hourglass_info w0 !! h = hourglass_info w !! h)).
  { intros w0 -> -> ->. split; [lia|]. split; reflexivity. }
  destruct e; cbn [dispatch is_user_output accepted_start shows_page concerns].
  - unfold exec. destruct (ignored handler) eqn:Hh; cbn [negb].
    + rewrite on_handler_started_ignored by exact Hh. cbn [snd].
      split; [lia|]. split; reflexivity.
    + rewrite on_handler_started_accepted by exact Hh. cbn.
      split; [lia|]. split; [reflexivity|].
      intros Hne. apply String.eqb_neq in Hne.
      now rewrite !lookup_insert_ne.
  - unfold on_handler_complete, hourglass_get. step_monad.
    destruct (Py.contains "Mark2" handler);
      [cbn [snd]; split; [lia|]; split; reflexivity|].
    destruct (Py.contains "TimeSkill.update_display" handler);
      [cbn [snd]; split; [lia|]; split; reflexivity|].
    destruct (hourglass_info w !! handler) as [v|] eqn:Hv; cbn;
      [|split; [lia|]; split; reflexivity].
    destruct (v =? -1); cbn; rewrite Hv; cbn;
      (split; [lia|]; split; [reflexivity|]);
      intros Hne; apply String.eqb_neq in Hne; now rewrite lookup_delete_ne.
  - cbn. split; [reflexivity|]. split; reflexivity.
  - unfold on_handler_speaking. step_monad.
    destruct (negb (has_show_page w)); cbn [snd]; [|now apply Hsame].
    destruct code; now apply Hsame.
  - unfold on_gui_page_show.
    destruct (Py.contains "Mark2" handler); cbn;
      (split; [lia|]; split; reflexivity).
  - destruct (auto_dim_eyes w) eqn:Hdim.
    + destruct (Z_gt_le_dec (idle_count w) 2) as [Hrest|Hawake].
      * rewrite handle_listener_started_waking by assumption. now apply Hsame.
      * rewrite handle_listener_started_attentive by assumption. now apply Hsame.
    + rewrite handle_listener_started_undimmed by exact Hdim. now apply Hsame.
  - now apply Hsame.
  - now apply Hsame.
  - now apply Hsame.
  - destruct connected; now apply Hsame.
  - destruct (handle_brightness_frame brightness response w)
      as (_ & Hhg & Hid & Hsp & _).
    now apply Hsame.
  - destruct (handle_auto_brightness_frame w) as (_ & Hhg & Hid & Hsp & _).
    now apply Hsame.
  - destruct (fire_frame name w) as (Hhg & Hid & Hsp). now apply Hsame.
  - now apply Hsame.
  - now apply Hsame.
Qed.

End Tracker.

Lemma prefix_append (sub suf : string) : String.prefix sub (String.append sub suf) = true.
Proof.
  induction sub as [|a sub IH]; [now destruct suf|].
  change (String.prefix (String a sub) (String a (String.append sub suf)) = true).
  change (match ascii_dec a a with
          | left _ => String.prefix sub (String.append sub suf)
          | right _ => false
          end = true).
  destruct (ascii_dec a a) as [_|Hne]; [exact IH|now destruct Hne].
Qed.

Lemma contains_prefix (sub s : string) :
  String.prefix sub s = true -> Py.contains sub s = true.
Proof.
  intros Hp. destruct s; unfold Py.contains; fold Py.contains; now rewrite Hp.
Qed.

Lemma contains_infix (sub pre suf : string) :
  Py.contains sub (String.append pre (String.append sub suf)) = true.
Proof.
  induction pre as [|c pre IH].
  - change (String.append "" (String.append sub suf))
      with (String.append sub suf).
    apply contains_prefix, prefix_append.
  - change (String.append (String c pre) (String.append sub suf))
      with (String c (String.append pre (String.append sub suf))).
    unfold Py.contains; fold Py.contains. rewrite IH. apply orb_true_r.
Qed.

Lemma on_handler_complete_ignored (w : World) (handler : string) :
  ignored handler = true -> on_handler_complete handler w = (Ok tt, w).
Proof.
  unfold ignored, on_handler_complete. intros Hh.
  destruct (Py.contains "Mark2" handler); [reflexivity|].
  simpl in Hh. rewrite Hh. reflexivity.
Qed.

Lemma on_handler_complete_busy (w : World) (handler : string) :
  ignored handler = false -> hourglass_info w !! handler = Some (-1) ->
  on_handler_complete handler w =
    (Ok tt, set_hourglass_info (delete handler (hourglass_info w))
              (set_emitted (emitted w ++ [enclosure_reset]) w)).
Proof.
  intros Hh Hbusy. apply ignored_false in Hh as [Hself Hclock].
  unfold on_handler_complete, hourglass_get.
  rewrite Hself, Hclock. step_monad. rewrite Hbusy. cbn. rewrite Hbusy. reflexivity.
Qed.

(** X7.  The interaction counter grows by one for each user-facing output
    event and is left alone by every other event: it never goes down and
    is never reset. *)
Theorem X7_interaction_counter `{Host} (events : list Event) (w : World) :
  interaction_id (run events w)
    = interaction_id w + Z.of_nat (length (List.filter is_user_output events)) /\
  interaction_id w <= interaction_id (run events w).
Proof.
  assert (Hcount : interaction_id (run events w)
    = interaction_id w + Z.of_nat (length (List.filter is_user_output events))).
  { revert w. induction events as [|e events IH]; intros w; [cbn; lia|].
    rewrite run_cons, IH.
    destruct (dispatch_tracker e "" w) as (Hid & _).
    change (run [e] w) with (exec (dispatch e) w). rewrite Hid.
    cbn [List.filter]. destruct (is_user_output e); cbn [length]; lia. }
  split; [exact Hcount|lia].
Qed.

(** X8.  After a skill other than this one has shown a page, visemes are
    dropped: until the tracker accepts the start of a handler, every viseme
    is ignored without a command and without a look at its code.  The next
    accepted handler start lifts this: a viseme with a code then sets the
    mouth shape and requests the "speaking" page, and a viseme without a
    code raises [KeyError] with nothing sent. *)
Theorem X8_shown_page_suppresses_visemes `{Host}
    (w : World) (other starting c : string) (events : list Event) (code : option string)
    (Hother : Py.contains "Mark2" other = false)
    (Hevents : Forall (fun e => accepted_start e = false) events)
    (Hstarting : ignored starting = false) :
  let w1 := run (gui_page_show other :: events) w in
  let w2 := run [handler_start starting] w1 in
  has_show_page w1 = true /\
  on_handler_speaking code w1 = (Ok tt, w1) /\
  emitted (exec (on_handler_speaking (Some c)) w2)
    = emitted w2 ++ [gui_set "viseme" c; show_page "speaking.qml"] /\
  on_handler_speaking None w2 = (Raise KeyError, w2).
Proof.
  intros w1 w2.
  assert (H1 : has_show_page w1 = true).
  { subst w1. rewrite run_cons.
    assert (H0 : has_show_page (run [gui_page_show other] w) = true).
    { change (run [gui_page_show other] w)
        with (exec (on_gui_page_show other) w).
      unfold on_gui_page_show. rewrite Hother. reflexivity. }
    revert H0. generalize (run [gui_page_show other] w).
    induction Hevents as [|e events He _ IH]; intros w0 H0; [exact H0|].
    rewrite run_cons. apply IH.
    destruct (dispatch_tracker e "" w0) as (_ & Hsp & _).
    change (run [e] w0) with (exec (dispatch e) w0).
    rewrite Hsp, He, H0. now destruct (shows_page e). }
  assert (H2 : has_show_page w2 = false).
  { subst w2. change (run [handler_start starting] w1)
      with (exec (on_handler_started starting) w1).
    unfold exec. now rewrite on_handler_started_accepted. }
  split; [exact H1|]. split; [|split].
  - unfold on_handler_speaking. step_monad. rewrite H1. reflexivity.
  - unfold on_handler_speaking. step_monad. rewrite H2. cbn.
    now rewrite <- app_assoc.
  - unfold on_handler_speaking. step_monad. rewrite H2. reflexivity.
Qed.

Lemma X8_shown_page_suppresses_visemes_witness :
  let host := greenwich (fun _ => 0) in
  let w1 := run (H := host)
              [gui_page_show "WeatherSkill.handle_weather"; user_output; record_end]
              __init__ in
  Py.contains "Mark2" "WeatherSkill.handle_weather" = false /\
  Forall (fun e => accepted_start (H := host) e = false) [user_output; record_end] /\
  ignored "TimerSkill.handle_start" = false /\
  on_handler_speaking (Some "3") w1 = (Ok tt, w1).
Proof.
  intros host w1.
  assert (Hother : Py.contains "Mark2" "WeatherSkill.handle_weather" = false)
    by (vm_compute; reflexivity).
  assert (Hevents : Forall (fun e => accepted_start (H := host) e = false)
                      [user_output; record_end]) by (repeat constructor).
  assert (Hstarting : ignored "TimerSkill.handle_start" = false)
    by (vm_compute; reflexivity).
  split; [exact Hother|]. split; [exact Hevents|]. split; [exact Hstarting|].
  exact (proj1 (proj2 (@X8_shown_page_suppresses_visemes host __init__
           "WeatherSkill.handle_weather" "TimerSkill.handle_start" "0"
           [user_output; record_end] (Some "3") Hother Hevents Hstarting))).
Defined.

(** X9.  The entry of an accepted handler is marked busy from its start and
    stays so until its own completion, whatever other events come between,
    user-facing output included: the completion then always resets the
    enclosure, removes the entry and leaves the entries of other handlers
    alone. *)
Theorem X9_completion_always_resets `{Host}
    (w : World) (handler : string) (events : list Event)
    (Hh : ignored handler = false)
    (Hevents : Forall (fun e => concerns handler e = false) events) :
  let w1 := run (handler_start handler :: events) w in
  let w2 := run [handler_complete handler] w1 in
  hourglass_info w1 !! handler = Some (-1) /\
  emitted w2 = emitted w1 ++ [enclosure_reset] /\
  hourglass_info w2 = delete handler (hourglass_info w1).
Proof.
  intros w1 w2.
  assert (H1 : hourglass_info w1 !! handler = Some (-1)).
  { subst w1. rewrite run_cons.
    assert (H0 : hourglass_info (run [handler_start handler] w) !! handler = Some (-1)).
    { change (run [handler_start handler] w)
        with (exec (on_handler_started handler) w).
      unfold exec. rewrite on_handler_started_accepted by exact Hh.
      cbn. apply lookup_insert_eq. }
    revert H0. generalize (run [handler_start handler] w).
    induction Hevents as [|e events He _ IH]; intros w0 H0; [exact H0|].
    rewrite run_cons. apply IH.
    destruct (dispatch_tracker e handler w0) as (_ & _ & Hhg).
    change (run [e] w0) with (exec (dispatch e) w0).
    now rewrite (Hhg He). }
  split; [exact H1|].
  subst w2. change (run [handler_complete handler] w1)
    with (exec (on_handler_complete handler) w1).
  unfold exec. rewrite on_handler_complete_busy by assumption.
  split; reflexivity.
Qed.

Lemma X9_completion_always_resets_witness :
  let host := greenwich (fun _ => 0) in
  let events := [user_output; handler_start "TimerSkill.handle_start";
                 handler_complete "TimerSkill.handle_start"; record_end] in
  let w1 := run (H := host) (handler_start "WeatherSkill.handle_weather" :: events)
              __init__ in
  ignored "WeatherSkill.handle_weather" = false /\
  Forall (fun e => concerns (H := host) "WeatherSkill.handle_weather" e = false) events /\
  emitted (run (H := host) [handler_complete "WeatherSkill.handle_weather"] w1)
    = emitted w1 ++ [enclosure_reset].
Proof.
  intros host events w1.
  assert (Hh : ignored "WeatherSkill.handle_weather" = false)
    by (vm_compute; reflexivity).
  assert (Hevents : Forall (fun e => concerns (H := host)
                      "WeatherSkill.handle_weather" e = false) events)
    by (repeat constructor).
  split; [exact Hh|]. split; [exact Hevents|].
  exact (proj1 (proj2 (@X9_completion_always_resets host __init__
           "WeatherSkill.handle_weather" events Hh Hevents))).
Defined.

(** X10.  The tracker ignores a handler whose name has "Mark2" or
    "TimeSkill.update_display" anywhere in it, not only as a whole name:
    neither its start nor its completion changes the world. *)
Theorem X10_ignored_by_substring (w : World) (before after : string) :
  let own := String.append before (String.append "Mark2" after) in
  let clock_update :=
    String.append before (String.append "TimeSkill.update_display" after) in
  on_handler_started own w = (Ok tt, w) /\
  on_handler_complete own w = (Ok tt, w) /\
  on_handler_started clock_update w = (Ok tt, w) /\
  on_handler_complete clock_update w = (Ok tt, w).
Proof.
  intros own clock_update.
  assert (Hown : ignored own = true)
    by (unfold ignored, own; now rewrite contains_infix).
  assert (Hclock : ignored clock_update = true)
    by (unfold ignored, clock_update; rewrite (contains_infix "TimeSkill.update_display");
        apply orb_true_r).
  split; [now apply on_handler_started_ignored|].
  split; [now apply on_handler_complete_ignored|].
  split; [now apply on_handler_started_ignored|].
  now apply on_handler_complete_ignored.
Qed.

(** ** Setting a brightness by hand *)

Lemma _set_brightness_level `{Host} (text : string) (percent level : Z) (w : World) :
  parse_brightness text = Some percent -> percent <> -1 ->
  percent_to_level percent = Ok level ->
  exists rest,
    emitted (exec (_set_brightness text) w)
      = emitted w ++ eyes_brightness (Some level) :: rest.
Proof.
  unfold _set_brightness. intros -> Hp Hlevel.
  destruct (percent =? -1) eqn:Heq; [apply Z.eqb_eq in Heq; contradiction|].
  unfold set_eye_brightness. step_monad. rewrite Hlevel. cbn.
  destruct (level_to_percent level); cbn; rewrite <- ?app_assoc; eexists; reflexivity.
Qed.

(** X11.  A text that reads as a percentage of 0..100 sets the mode to
    manual, sends the level [percent*30/100], which lies in 0..30, and
    speaks the percentage of that level, which is the percentage asked for
    or up to 3 less. *)
Theorem X11_manual_brightness_confirmed `{Host}
    (text : string) (percent : Z) (w : World)
    (Hparse : parse_brightness text = Some percent)
    (Hrange : 0 <= percent <= 100) :
  let level := percent * 30 / 100 in
  let spoken := level * 100 / 30 in
  _set_brightness text w =
    (Ok tt,
     set_emitted
       (emitted w ++ [eyes_brightness (Some level);
                      speak_dialog "brightness.set" (Some (pretty spoken ++ "%")%string)])
       (set_auto_brightness (Some false) w)) /\
  0 <= level <= 30 /\ percent - 3 <= spoken <= percent.
Proof.
  intros level spoken.
  assert (Hlevel : 0 <= level <= 30).
  { subst level. split; [apply Z.div_pos; lia|apply Z.div_le_upper_bound; lia]. }
  split; [|split; [exact Hlevel|]].
  - unfold _set_brightness. rewrite Hparse.
    destruct (percent =? -1) eqn:Heq; [apply Z.eqb_eq in Heq; lia|].
    unfold set_eye_brightness. step_monad.
    rewrite percent_to_level_exact by exact Hrange. cbn.
    fold level. rewrite level_to_percent_exact by exact Hlevel. cbn.
    unfold modify. destruct w; cbn. rewrite <- app_assoc. reflexivity.
  - subst spoken level.
    pose proof (Z.div_mod (percent * 30) 100 ltac:(lia)) as H1.
    pose proof (Z.mod_pos_bound (percent * 30) 100 ltac:(lia)) as H2.
    pose proof (Z.div_mod (percent * 30 / 100 * 100) 30 ltac:(lia)) as H3.
    pose proof (Z.mod_pos_bound (percent * 30 / 100 * 100) 30 ltac:(lia)) as H4.
    lia.
Qed.

Lemma X11_manual_brightness_confirmed_witness :
  let host := greenwich (fun _ => 0) in
  parse_brightness (H := host) "45" = Some 45 /\ 0 <= 45 <= 100 /\
  emitted (exec (_set_brightness (H := host) "45") __init__)
    = [eyes_brightness (Some 13); speak_dialog "brightness.set" (Some "43%")].
Proof.
  intros host.
  assert (Hparse : parse_brightness (H := host) "45" = Some 45)
    by (vm_compute; reflexivity).
  split; [exact Hparse|]. split; [lia|].
  unfold exec.
  rewrite (proj1 (@X11_manual_brightness_confirmed host "45" 45 __init__ Hparse
                    ltac:(lia))).
  reflexivity.
Defined.

(** X12.  A text that is not a named term and has neither a "%" nor a
    "percent" in it never reads as a value outside 0..100: only named terms
    and marked texts can ask for more, for less, or (with -1) for automatic
    brightness. *)
Theorem X12_bare_integer_in_range `{Host} (text : string) (percent : Z)
    (Hunnamed : brightness_dict !! normalize text = None)
    (Hbare : Py.contains "%" text = false /\ Py.contains "percent" text = false)
    (Hparse : parse_brightness text = Some percent) :
  0 <= percent <= 100.
Proof.
  destruct Hbare as [Hpc Hword].
  rewrite parse_brightness_unfold in Hparse. unfold parseBrightness_spec in Hparse.
  rewrite Hunnamed, Hpc, Hword in Hparse.
  destruct (Py.int text) as [i|e]; [|discriminate].
  destruct (Z.ltb_spec i 0); [discriminate|].
  destruct (Z.ltb_spec 100 i); [discriminate|]. cbn in Hparse.
  destruct (Z.ltb_spec i 30); injection Hparse as <-; [|lia].
  split; [apply Z.div_pos; lia|apply Z.div_le_upper_bound; lia].
Qed.

Lemma X12_bare_integer_in_range_witness :
  let host := greenwich (fun _ => 0) in
  @brightness_dict host !! @normalize host "29" = None /\
  (Py.contains "%" "29" = false /\ Py.contains "percent" "29" = false) /\
  parse_brightness (H := host) "29" = Some 96 /\ 0 <= 96 <= 100.
Proof.
  intros host.
  assert (Hunnamed : @brightness_dict host !! @normalize host "29" = None)
    by (vm_compute; reflexivity).
  assert (Hbare : Py.contains "%" "29" = false /\ Py.contains "percent" "29" = false)
    by (split; vm_compute; reflexivity).
  assert (Hparse : parse_brightness (H := host) "29" = Some 96)
    by (vm_compute; reflexivity).
  split; [exact Hunnamed|]. split; [exact Hbare|]. split; [exact Hparse|].
  exact (@X12_bare_integer_in_range host "29" 96 Hunnamed Hbare Hparse).
Defined.

(** X13.  Nothing clamps a brightness on its way to the hardware: a text
    that reads as 104..1000 percent sends a level above 30, and a text that
    reads as -1000..-4 percent sends a level below 0. *)
Theorem X13_level_not_clamped `{Host} (text : string) (percent : Z) (w : World)
    (Hparse : parse_brightness text = Some percent)
    (Hrange : 104 <= percent <= 1000 \/ -1000 <= percent <= -4) :
  exists level rest,
    (if 0 <? percent then 30 < level else level < 0) /\
    emitted (exec (_set_brightness text) w)
      = emitted w ++ eyes_brightness (Some level) :: rest.
Proof.
  destruct Hrange as [Hhigh|Hlow].
  - assert (Habove : above_range percent = true).
    { apply (Z_range_forallb above_range 104 897); [vm_compute; reflexivity|lia]. }
    unfold above_range in Habove.
    destruct (percent_to_level percent) as [level|e] eqn:Hlevel; [|discriminate].
    apply Z.ltb_lt in Habove.
    destruct (_set_brightness_level text percent level w Hparse ltac:(lia) Hlevel)
      as (rest & Hemit).
    exists level, rest. split; [|exact Hemit].
    destruct (Z.ltb_spec 0 percent); [exact Habove|lia].
  - assert (Hbelow : below_range percent = true).
    { apply (Z_range_forallb below_range (-1000) 997); [vm_compute; reflexivity|lia]. }
    unfold below_range in Hbelow.
    destruct (percent_to_level percent) as [level|e] eqn:Hlevel; [|discriminate].
    apply Z.ltb_lt in Hbelow.
    destruct (_set_brightness_level text percent level w Hparse ltac:(lia) Hlevel)
      as (rest & Hemit).
    exists level, rest. split; [|exact Hemit].
    destruct (Z.ltb_spec 0 percent); [lia|exact Hbelow].
Qed.

Lemma X13_level_not_clamped_witness :
  let host := greenwich (fun _ => 0) in
  parse_brightness (H := host) "150%" = Some 150 /\
  (104 <= 150 <= 1000 \/ -1000 <= 150 <= -4) /\
  exists level rest,
    30 < level /\
    emitted (exec (_set_brightness (H := host) "150%") __init__)
      = emitted __init__ ++ eyes_brightness (Some level) :: rest.
Proof.
  intros host.
  assert (Hparse : parse_brightness (H := host) "150%" = Some 150)
    by (vm_compute; reflexivity).
  assert (Hrange : 104 <= 150 <= 1000 \/ -1000 <= 150 <= -4) by lia.
  split; [exact Hparse|]. split; [exact Hrange|].
  exact (@X13_level_not_clamped host "150%" 150 __init__ Hparse Hrange).
Defined.

(** X14.  [schedule_brightness] adds one timer, at the instant it was given
    or exactly 86400 seconds after it, never before it.  The timer lies at
    or after the clock reading unless the instant was more than a day old,
    in which case the timer is scheduled in the past. *)
Theorem X14_schedule_brightness_instant `{Host}
    (w : World) (name : string) (t level : Z) :
  let now := clock (reads w) in
  let w' := exec (schedule_brightness name (t, level)) w in
  exists when,
    scheduled w' = scheduled w ++ [solar_timer name when level] /\
    sched_log w' = sched_log w ++ [sc_schedule name when] /\
    emitted w' = emitted w /\
    (when = t \/ when = t + 86400) /\ t <= when /\
    (now <=? when) = (now - 86400 <=? t).
Proof.
  intros now w'. subst now w'.
  destruct w as [ic hg iid hsp ab ade da sch sl em rd].
  unfold schedule_brightness, schedule_event, arrow_now. step_monad. cbn.
  destruct (Z.gtb_spec (clock rd) t) as [Hpast|Hfuture]; cbn.
  - exists (t + 86400). repeat split; first [reflexivity | lia].
  - exists t. repeat split; first [reflexivity | lia].
Qed.

(** X15.  A text that is not a named term, carries no marker, and is
    either no integer or an integer outside 0..100, is refused: the only
    effect of [_set_brightness] is the "not understood" reply, the mode and
    the hardware are left as they were. *)
Theorem X15_unreadable_brightness_refused `{Host} (text : string) (w : World)
    (Hunnamed : brightness_dict !! normalize text = None)
    (Hbare : Py.contains "%" text = false /\ Py.contains "percent" text = false)
    (Hbad : match Py.int text with
            | Ok i => i < 0 \/ 100 < i
            | Raise _ => True
            end) :
  _set_brightness text w =
    (Ok tt, set_emitted (emitted w ++ [speak_dialog "brightness.not.found.final" None]) w).
Proof.
  destruct Hbare as [Hpc Hword].
  assert (Hparse : parse_brightness text = None).
  { rewrite parse_brightness_unfold. unfold parseBrightness_spec.
    rewrite Hunnamed, Hpc, Hword.
    destruct (Py.int text) as [i|e]; [|reflexivity].
    destruct (Z.ltb_spec i 0); [reflexivity|].
    destruct (Z.ltb_spec 100 i); [reflexivity|]. lia. }
  unfold _set_brightness. rewrite Hparse. reflexivity.
Qed.

Lemma X15_unreadable_brightness_refused_witness :
  let host := greenwich (fun _ => 0) in
  @brightness_dict host !! @normalize host "150" = None /\
  (Py.contains "%" "150" = false /\ Py.contains "percent" "150" = false) /\
  Py.int "150" = Ok 150 /\
  emitted (exec (_set_brightness (H := host) "150") __init__)
    = [speak_dialog "brightness.not.found.final" None].
Proof.
  intros host.
  assert (Hunnamed : @brightness_dict host !! @normalize host "150" = None)
    by (vm_compute; reflexivity).
  assert (Hbare : Py.contains "%" "150" = false /\ Py.contains "percent" "150" = false)
    by (split; vm_compute; reflexivity).
  assert (Hint : Py.int "150" = Ok 150) by (vm_compute; reflexivity).
  split; [exact Hunnamed|]. split; [exact Hbare|]. split; [exact Hint|].
  unfold exec.
  rewrite (@X15_unreadable_brightness_refused host "150" __init__ Hunnamed Hbare);
    [reflexivity|].
  rewrite Hint. right. lia.
Defined.

(** X16.  On 0..100, [percent_to_level] never answers a larger percentage
    with a smaller level, and every level of 0..30 is the level of some
    percentage of 0..100, the least being [level*100/30] rounded up. *)
Theorem X16_percent_to_level_monotone_onto (p q level : Z)
    (Hpq : 0 <= p <= q /\ q <= 100) (Hlevel : 0 <= level <= 30) :
  (exists lp lq, percent_to_level p = Ok lp /\ percent_to_level q = Ok lq /\ lp <= lq) /\
  0 <= least_percent level <= 100 /\
  percent_to_level (least_percent level) = Ok level /\
  (forall percent, 0 <= percent < least_percent level ->
     exists l, percent_to_level percent = Ok l /\ l < level).
Proof.
  split; [|split; [|split]].
  - exists (p * 30 / 100), (q * 30 / 100).
    rewrite !percent_to_level_exact by lia.
    split; [reflexivity|]. split; [reflexivity|].
    apply Z.div_le_mono; lia.
  - unfold least_percent. split; [apply Z.div_pos; lia|].
    apply Z.lt_succ_r. apply Z.div_lt_upper_bound; lia.
  - apply res_eqb_eq.
    apply (Z_range_forallb
             (fun l => res_eqb (percent_to_level (least_percent l)) l) 0 31);
      [vm_compute; reflexivity|lia].
  - intros percent Hpercent.
    assert (Hleast : least_percent level <= 100)
      by (unfold least_percent; apply Z.lt_succ_r, Z.div_lt_upper_bound; lia).
    exists (percent * 30 / 100).
    rewrite percent_to_level_exact by lia. split; [reflexivity|].
    unfold least_percent in Hpercent.
    apply Z.div_lt_upper_bound; [lia|].
    pose proof (Z.div_mod (level * 100 + 29) 30 ltac:(lia)) as H1.
    pose proof (Z.mod_pos_bound (level * 100 + 29) 30 ltac:(lia)) as H2.
    lia.
Qed.

Lemma X16_percent_to_level_monotone_onto_witness :
  (0 <= 3 <= 4 /\ 4 <= 100) /\ 0 <= 1 <= 30 /\
  least_percent 1 = 4 /\ percent_to_level 4 = Ok 1.
Proof.
  assert (Hpq : 0 <= 3 <= 4 /\ 4 <= 100) by lia.
  assert (Hlevel : 0 <= 1 <= 30) by lia.
  split; [exact Hpq|]. split; [exact Hlevel|]. split; [reflexivity|].
  exact (proj1 (proj2 (proj2 (X16_percent_to_level_monotone_onto 3 4 1 Hpq Hlevel)))).
Defined.

(** ** Listeners left on the bus *)

Lemma listener_eqb_eq (a b : string * Method) : listener_eqb a b = true <-> a = b.
Proof.
  destruct a as [ea ma], b as [eb mb]. unfold listener_eqb. cbn [fst snd].
  rewrite andb_true_iff, String.eqb_eq. split.
  - intros [-> Hm]. destruct ma, mb; try discriminate; reflexivity.
  - intros [= -> ->]. split; [reflexivity|]. now destruct mb.
Qed.

Lemma attached_on (event event' : string) (method method' : Method) (bus : Bus) :
  attached event method (bus_on event' method' bus)
    = (attached event method bus
       + if listener_eqb (event', method') (event, method) then 1 else 0)%nat.
Proof.
  unfold attached, bus_on. rewrite List.filter_app, length_app. cbn.
  destruct (listener_eqb (event', method') (event, method)); reflexivity.
Qed.

Lemma attached_remove_other (event event' : string) (method method' : Method) (bus : Bus) :
  listener_eqb (event', method') (event, method) = false ->
  attached event method (bus_remove event' method' bus) = attached event method bus.
Proof.
  intros Hne. unfold attached.
  induction bus as [|x bus IH]; [reflexivity|].
  cbn [bus_remove List.filter].
  destruct (listener_eqb x (event', method')) eqn:Hx.
  - apply listener_eqb_eq in Hx. subst x. now rewrite Hne.
  - cbn [List.filter]. destruct (listener_eqb x (event, method)); cbn [length]; now rewrite IH.
Qed.

Lemma attached_remove_same (event : string) (method : Method) (bus : Bus) :
  attached event method (bus_remove event method bus)
    = Nat.pred (attached event method bus).
Proof.
  unfold attached.
  induction bus as [|x bus IH]; [reflexivity|].
  cbn [bus_remove List.filter].
  destruct (listener_eqb x (event, method)) eqn:Hx; [reflexivity|].
  cbn [List.filter]. now rewrite Hx.
Qed.

(** X17.  [shutdown] does not take off all that [initialize] attached: after
    [initialize] and [shutdown] the bus carries one more listener for
    "gui.page.show" and one more for "mycroft.skills.initialized" than
    before, while each of the seven listeners [shutdown] names is attached
    as often as before. *)
Theorem X17_shutdown_leaves_two_listeners (bus : Bus) :
  let bus' := shutdown_bus (initialize_bus bus) in
  attached "gui.page.show" m_on_gui_page_show bus'
    = S (attached "gui.page.show" m_on_gui_page_show bus) /\
  attached "mycroft.skills.initialized" m_reset_face bus'
    = S (attached "mycroft.skills.initialized" m_reset_face bus) /\
  Forall (fun l => attached l.1 l.2 bus' = attached l.1 l.2 bus) detached_by_shutdown.
Proof.
  intros bus'. subst bus'. unfold shutdown_bus, initialize_bus, detached_by_shutdown.
  split; [|split; [|repeat constructor]]; cbn [fst snd];
    repeat first [ rewrite attached_remove_same
                 | rewrite attached_remove_other by reflexivity ];
    rewrite !attached_on;
    repeat match goal with
           | |- context [listener_eqb ?a ?b] =>
               let v := eval vm_compute in (listener_eqb a b) in
               change (listener_eqb a b) with v
           end;
    cbn iota; lia.
Qed.

(** ** What the busy table holds *)

(** X18.  Whatever events the skill has handled since [__init__], every
    entry of [hourglass_info] belongs to a handler the tracker does not
    ignore and holds the busy mark -1: the counter value written at the
    start of a handler never outlives that start. *)
Theorem X18_entries_always_busy `{Host} (events : list Event) (handler : string) (v : Z) :
  hourglass_info (run events __init__) !! handler = Some v ->
  v = -1 /\ ignored handler = false.
Proof.
  assert (Hinv : forall w,
            (forall v, hourglass_info w !! handler = Some v ->
                       v = -1 /\ ignored handler = false) ->
            forall v, hourglass_info (run events w) !! handler = Some v ->
                      v = -1 /\ ignored handler = false).
  { induction events as [|e events IH]; intros w Hw; [exact Hw|].
    rewrite run_cons. apply IH. clear IH.
    change (run [e] w) with (exec (dispatch e) w).
    destruct (concerns handler e) eqn:He.
    - destruct e; try discriminate He; cbn [concerns] in He;
        apply String.eqb_eq in He; subst handler0; cbn [dispatch]; unfold exec.
      + destruct (ignored handler) eqn:Hh.
        * now rewrite on_handler_started_ignored.
        * rewrite on_handler_started_accepted by exact Hh. cbn.
          rewrite lookup_insert_eq. intros v' [= <-]. now split.
      + destruct (ignored handler) eqn:Hh.
        * now rewrite on_handler_complete_ignored.
        * unfold on_handler_complete, hourglass_get.
          apply ignored_false in Hh as [-> ->]. step_monad.
          destruct (hourglass_info w !! handler) as [v0|] eqn:Hv0; cbn.
          -- destruct (v0 =? -1); cbn; rewrite Hv0; cbn;
               rewrite lookup_delete_eq; discriminate.
          -- rewrite Hv0. discriminate.
    - destruct (dispatch_tracker e handler w) as (_ & _ & Hsame).
      rewrite (Hsame He). exact Hw. }
  apply Hinv. intros v'. cbn. rewrite lookup_empty. discriminate.
Qed.

Lemma X18_entries_always_busy_witness :
  let host := greenwich (fun _ => 0) in
  let events := [user_output; handler_start "WeatherSkill.handle_weather"; user_output] in
  hourglass_info (run (H := host) events __init__) !! "WeatherSkill.handle_weather"
    = Some (-1) /\
  ignored "WeatherSkill.handle_weather" = false.
Proof.
  intros host events.
  assert (Hv : hourglass_info (run (H := host) events __init__)
                 !! "WeatherSkill.handle_weather" = Some (-1))
    by (vm_compute; reflexivity).
  split; [exact Hv|].
  exact (proj2 (@X18_entries_always_busy host events _ _ Hv)).
Defined.
